(** * koordlet resmanager: NodeSLO store, feature check and pod eviction

    A shallow embedding of [pkg/koordlet/resmanager] (the resmanager
    source file) and of the API types of [apis/slo/v1alpha1], with the
    properties of the desired-state store, of [isFeatureDisabled] and of the
    eviction pipeline.

    Conventions of the embedding:
    - a Go pointer that the code only tests against [nil] and dereferences is
      an [option]; [nil] is [None];
    - [int64] is [Z], [string] is [string];
    - a method of [*resmanager] is a computation in the monad [M], which
      threads the manager, the clock and the list of effects issued so far
      (API calls, events, metrics, audit records, log lines, runtime calls)
      and can end in a nil-pointer panic;
    - [sync.RWMutex] Lock/Unlock pairs have no sequential content and are
      left out; [DeepCopy] of an immutable value is the value. *)

From Stdlib Require Import ZArith Lia.
From stdpp Require Import gmap strings list fin_maps.

Local Open Scope Z_scope.

(** ** k8s.io/apimachinery/pkg/apis/meta/v1 *)
Module metav1.

(** The part of [metav1.TypeMeta] and [metav1.ObjectMeta] the agent sees. *)
Record TypeMeta := {
  Kind : string;
  APIVersion : string;
}.

Record ObjectMeta := {
  Name : string;
  Namespace : string;
  UID : string;
  ResourceVersion : string;
  Generation : Z;
  Labels : gmap string string;
  Annotations : gmap string string;
}.

End metav1.

(** ** apis/slo/v1alpha1/nodeslo_types.go *)
Module v1alpha1.

Record MemoryQoS := {
  MinLimitPercent : option Z;
  LowLimitPercent : option Z;
  ThrottlingPercent : option Z;
  WmarkRatio : option Z;
  WmarkScalePermill : option Z;
  WmarkMinAdj : option Z;
  PriorityEnable : option Z;
  Priority : option Z;
  OomKillGroup : option Z;
}.

Record MemoryQoSCfg := {
  MemoryQoSCfg_Enable : option bool;
  MemoryQoSCfg_MemoryQoS : MemoryQoS;
}.

Record ResctrlQoS := {
  CATRangeStartPercent : option Z;
  CATRangeEndPercent : option Z;
  MBAPercent : option Z;
}.

Record ResctrlQoSCfg := {
  ResctrlQoSCfg_Enable : option bool;
  ResctrlQoSCfg_ResctrlQoS : ResctrlQoS;
}.

Record ResourceQoS := {
  ResourceQoS_MemoryQoS : option MemoryQoSCfg;
  ResourceQoS_ResctrlQoS : option ResctrlQoSCfg;
}.

Record ResourceQoSStrategy := {
  LSR : option ResourceQoS;
  LS : option ResourceQoS;
  BE : option ResourceQoS;
  System : option ResourceQoS;
  CgroupRoot : option ResourceQoS;
}.

Inductive CPUSuppressPolicy :=
| CPUSuppressPolicyUnset   (* the empty string *)
| CPUSetPolicy             (* "cpuset" *)
| CPUCfsQuotaPolicy        (* "cfsQuota" *)
| CPUSuppressPolicyOther (s : string).

Record ResourceThresholdStrategy := {
  Enable : option bool;
  CPUSuppressThresholdPercent : option Z;
  CPUSuppressPolicy_ : CPUSuppressPolicy;
  MemoryEvictThresholdPercent : option Z;
  MemoryEvictLowerPercent : option Z;
}.

Inductive CPUBurstPolicy :=
| CPUBurstPolicyUnset      (* the empty string *)
| CPUBurstNone             (* "none" *)
| CPUBurstOnly             (* "cpuBurstOnly" *)
| CFSQuotaBurstOnly        (* "cfsQuotaBurstOnly" *)
| CPUBurstAuto             (* "auto" *)
| CPUBurstPolicyOther (s : string).

Record CPUBurstConfig := {
  Policy : CPUBurstPolicy;
  CPUBurstPercent : option Z;
  CFSQuotaBurstPercent : option Z;
  CFSQuotaBurstPeriodSeconds : option Z;
}.

Record CPUBurstStrategy := {
  CPUBurstStrategy_CPUBurstConfig : CPUBurstConfig;
  SharePoolThresholdPercent : option Z;
}.

(** NodeSLOSpec defines the desired state of NodeSLO *)
Record NodeSLOSpec := {
  ResourceUsedThresholdWithBE : option ResourceThresholdStrategy;
  ResourceQoSStrategy_ : option ResourceQoSStrategy;
  CPUBurstStrategy_ : option CPUBurstStrategy;
}.

(** NodeSLOStatus has no field. *)
Record NodeSLOStatus := { }.

Record NodeSLO := {
  NodeSLO_TypeMeta : metav1.TypeMeta;
  NodeSLO_ObjectMeta : metav1.ObjectMeta;
  Spec : NodeSLOSpec;
  Status : NodeSLOStatus;
}.

(** [spec == NodeSLOSpec{}]: a struct of three pointers equals the zero value
    exactly when the three of them are nil. *)
Definition NodeSLOSpec_is_zero (spec : NodeSLOSpec) : bool :=
  match ResourceUsedThresholdWithBE spec, ResourceQoSStrategy_ spec,
        CPUBurstStrategy_ spec with
  | None, None, None => true
  | _, _, _ => false
  end.

(** [n.Spec = spec] on a NodeSLO value. *)
Definition set_Spec (n : NodeSLO) (spec : NodeSLOSpec) : NodeSLO :=
  {| NodeSLO_TypeMeta := NodeSLO_TypeMeta n;
     NodeSLO_ObjectMeta := NodeSLO_ObjectMeta n;
     Spec := spec;
     Status := Status n |}.

End v1alpha1.

(** ** The part of k8s.io/api/core/v1 and apimachinery the manager touches *)
Module corev1.

Record Container := {
  Container_Name : string;
  Container_Image : string;
}.

Record ContainerStateRunning := {
  StartedAt : Z;
}.

Record ContainerState := {
  Running : option ContainerStateRunning;
}.

Record ContainerStatus := {
  ContainerStatus_Name : string;
  ContainerStatus_State : ContainerState;
  ContainerID : string;
}.

Record PodSpec := {
  Containers : list Container;
}.

Record PodStatus := {
  InitContainerStatuses : list ContainerStatus;
  ContainerStatuses : list ContainerStatus;
}.

Record Pod := {
  Pod_ObjectMeta : metav1.ObjectMeta;
  Pod_Spec : PodSpec;
  Pod_Status : PodStatus;
}.

Record Node := {
  Node_ObjectMeta : metav1.ObjectMeta;
}.

Definition EventTypeNormal : string := "Normal".
Definition EventTypeWarning : string := "Warning".

End corev1.

(** k8s.io/apimachinery/pkg/api/errors: an API error carries a status
    reason; [IsNotFound] recognises the reason NotFound. *)
Module apierrors.

Inductive StatusReason :=
| StatusReasonNotFound
| StatusReasonForbidden
| StatusReasonTooManyRequests
| StatusReasonInternalError
| StatusReasonTimeout.

Record StatusError := {
  ErrReason : StatusReason;
  ErrMessage : string;
}.

Definition IsNotFound (err : StatusError) : bool :=
  match ErrReason err with
  | StatusReasonNotFound => true
  | _ => false
  end.

End apierrors.

(** ** pkg/tools/cache: the expiring cache behind [podsEvicted] *)
Module expireCache.

(** Modelled from the spec: an eviction record of pkg/tools/cache, the
    stored value and the instant its TTL ends. *)
Record item := {
  object : string;
  expirationTime : Z;
}.

(** Modelled from the spec: the expiring dedup cache of pkg/tools/cache,
    whose source is not part of the files at hand.  It is a key-value store
    with a per-entry expiry at the cache-wide default TTL; an entry past its
    expiry is treated as absent, and the cache refuses writes once it has
    been shut down. *)
Record Cache := {
  items : gmap string item;
  defaultExpiration : Z;
  stopped : bool;
}.

(** Modelled from the spec: [get(key) -> (value, found)] is a lookup with
    no side effect; an entry is found while its TTL has not elapsed. *)
Definition Get (c : Cache) (now : Z) (key : string) : option string :=
  match items c !! key with
  | Some it => if Z.ltb now (expirationTime it) then Some (object it) else None
  | None => None
  end.

(** Modelled from the spec: [set(key, value)] inserts or refreshes an entry
    with the cache's default TTL, and returns an error only if the cache has
    been shut down.  The result is the cache after the call and the error. *)
Definition SetDefault (c : Cache) (now : Z) (key value : string)
  : Cache * option string :=
  if stopped c then (c, Some "cache is stopped")
  else ({| items := <[key := {| object := value;
                               expirationTime := now + defaultExpiration c |}]>
                      (items c);
           defaultExpiration := defaultExpiration c;
           stopped := stopped c |}, None).

(** Modelled from the spec: a fresh cache holds no entry. *)
Definition NewCache (ttl : Z) : Cache :=
  {| items := ∅; defaultExpiration := ttl; stopped := false |}.

End expireCache.

(** ** pkg/koordlet/resmanager *)
Module resmanager.
Import metav1 v1alpha1 corev1.

Definition evictPodSuccess : string := "evictPodSuccess".
Definition evictPodFail : string := "evictPodFail".

(** featuregate.Feature is a string. *)
Definition Feature : Type := string.

(** A handler of the container-runtime registry, known by its runtime. *)
Record RuntimeHandler := {
  runtimeName : string;
}.

Inductive Severity := SevInfo | SevV5 | SevWarning | SevError.

(** What the manager does to the outside world, in the order it does it.
    A log line is kept by its severity and format string. *)
Inductive Effect :=
| AuditPod (namespace name reason message : string)
| EvictV1Call (namespace name : string)
| Eventf (node eventtype reason message : string)
| RecordPodEviction (reason : string)
| StopContainerCall (h : RuntimeHandler) (containerID : string) (gracePeriod : Z)
| Klog (sev : Severity) (format : string).

(** The fields of the [resmanager] struct that the methods below use. *)
Record resmanager := {
  nodeName : string;
  podsEvicted : expireCache.Cache;
  nodeSLO : option NodeSLO;
}.

Record World := {
  mgr : resmanager;
  clock : Z;
  effects : list Effect;
}.

(** A run either finishes or stops at a nil-pointer dereference. *)
Inductive Result (A : Type) :=
| Done (a : A)
| NilPointerPanic.
Arguments Done {A} a.
Arguments NilPointerPanic {A}.

Definition M (A : Type) : Type := World -> Result (A * World).

Definition ret {A} (a : A) : M A := fun w => Done (a, w).

Definition bind {A B} (m : M A) (k : A -> M B) : M B :=
  fun w => match m w with
           | Done (a, w') => k a w'
           | NilPointerPanic => NilPointerPanic
           end.

Notation "x <- m ;; k" := (bind m (fun x => k))
  (at level 100, m at level 99, right associativity).
Notation "m ;;; k" := (bind m (fun _ => k))
  (at level 100, right associativity).

Definition panic {A} : M A := fun _ => NilPointerPanic.

Definition emit (e : Effect) : M unit :=
  fun w => Done (tt, {| mgr := mgr w; clock := clock w;
                        effects := effects w ++ [e] |}).

Definition klog (sev : Severity) (format : string) : M unit :=
  emit (Klog sev format).

Definition getMgr : M resmanager := fun w => Done (mgr w, w).

Definition putMgr (r : resmanager) : M unit :=
  fun w => Done (tt, {| mgr := r; clock := clock w; effects := effects w |}).

Definition timeNow : M Z := fun w => Done (clock w, w).

Definition getEffects : M (list Effect) := fun w => Done (effects w, w).

(** The world [w] after the effects [es] and nothing else. *)
Definition add_effects (w : World) (es : list Effect) : World :=
  {| mgr := mgr w; clock := clock w; effects := effects w ++ es |}.

Definition set_nodeSLO (r : resmanager) (n : option NodeSLO) : resmanager :=
  {| nodeName := nodeName r; podsEvicted := podsEvicted r; nodeSLO := n |}.

Definition set_podsEvicted (r : resmanager) (c : expireCache.Cache)
  : resmanager :=
  {| nodeName := nodeName r; podsEvicted := c; nodeSLO := nodeSLO r |}.

(** [r.podsEvicted.Get(key)] *)
Definition podsEvicted_Get (key : string) : M (option string) :=
  r <- getMgr ;; now <- timeNow ;;
  ret (expireCache.Get (podsEvicted r) now key).

(** [r.podsEvicted.SetDefault(key, value)] *)
Definition podsEvicted_SetDefault (key value : string) : M (option string) :=
  r <- getMgr ;; now <- timeNow ;;
  let '(c, err) := expireCache.SetDefault (podsEvicted r) now key value in
  putMgr (set_podsEvicted r c) ;;; ret err.

(** The world after [SetDefault(uid, uid)] on the dedup cache of [w]. *)
Definition recordEvicted (w : World) (uid : string) : World :=
  {| mgr := set_podsEvicted (mgr w)
              (fst (expireCache.SetDefault (podsEvicted (mgr w)) (clock w)
                      uid uid));
     clock := clock w;
     effects := effects w |}.

(** *** The desired-state store *)
Section Store.

(** The compiled-in default and the per-block merge functions live in other
    files of the package; the store is stated for any of them.  A merge
    function takes the default block and the incoming one.
    [mergeNoneResourceQoSIfDisabled] rewrites the merged strategy through
    its pointer; here it returns the rewritten block. *)
Variable DefaultNodeSLOSpecConfig : NodeSLOSpec.
Variable mergeSLOSpecResourceUsedThresholdWithBE :
  option ResourceThresholdStrategy -> option ResourceThresholdStrategy ->
  option ResourceThresholdStrategy.
Variable mergeSLOSpecResourceQoSStrategy :
  option ResourceQoSStrategy -> option ResourceQoSStrategy ->
  option ResourceQoSStrategy.
Variable mergeNoneResourceQoSIfDisabled :
  option ResourceQoSStrategy -> option ResourceQoSStrategy.
Variable mergeSLOSpecCPUBurstStrategy :
  option CPUBurstStrategy -> option CPUBurstStrategy ->
  option CPUBurstStrategy.

(** The three guarded assignments of [mergeNodeSLOSpec], on the stored
    object [old] and the incoming one [new]. *)
Definition mergedSpec (old new : NodeSLO) : NodeSLOSpec :=
  let mergedResourceUsedThresholdWithBESpec :=
    mergeSLOSpecResourceUsedThresholdWithBE
      (ResourceUsedThresholdWithBE DefaultNodeSLOSpecConfig)
      (ResourceUsedThresholdWithBE (Spec new)) in
  let mergedResourceQoSStrategySpec :=
    mergeNoneResourceQoSIfDisabled
      (mergeSLOSpecResourceQoSStrategy
         (ResourceQoSStrategy_ DefaultNodeSLOSpecConfig)
         (ResourceQoSStrategy_ (Spec new))) in
  let mergedCPUBurstStrategySpec :=
    mergeSLOSpecCPUBurstStrategy
      (CPUBurstStrategy_ DefaultNodeSLOSpecConfig)
      (CPUBurstStrategy_ (Spec new)) in
  {| ResourceUsedThresholdWithBE :=
       match mergedResourceUsedThresholdWithBESpec with
       | Some m => Some m
       | None => ResourceUsedThresholdWithBE (Spec old)
       end;
     ResourceQoSStrategy_ :=
       match mergedResourceQoSStrategySpec with
       | Some m => Some m
       | None => ResourceQoSStrategy_ (Spec old)
       end;
     CPUBurstStrategy_ :=
       match mergedCPUBurstStrategySpec with
       | Some m => Some m
       | None => CPUBurstStrategy_ (Spec old)
       end |}.

(** mergeNodeSLOSpec merges nodeSLO with default config *)
Definition mergeNodeSLOSpec (nodeSLO : option NodeSLO) : M unit :=
  r <- getMgr ;;
  match r.(resmanager.nodeSLO), nodeSLO with
  | Some old, Some new =>
      putMgr (set_nodeSLO r (Some (set_Spec old (mergedSpec old new))))
  | _, _ =>
      klog SevError "failed to merge with nil nodeSLO, old: %v, new: %v"
  end.

Definition createNodeSLO (nodeSLO : option NodeSLO) : M unit :=
  r <- getMgr ;;
  (* r.nodeSLO = nodeSLO.DeepCopy(): DeepCopy of nil is nil *)
  putMgr (set_nodeSLO r nodeSLO) ;;;
  (* r.nodeSLO.Spec = nodeSLO.Spec *)
  match nodeSLO with
  | None => panic
  | Some new =>
      putMgr (set_nodeSLO r (Some (set_Spec new (Spec new)))) ;;;
      mergeNodeSLOSpec nodeSLO ;;;
      klog SevInfo "update nodeSLO content: old %s, new %s"
  end.

Definition getNodeSLOCopy : M (option NodeSLO) :=
  r <- getMgr ;;
  match r.(resmanager.nodeSLO) with
  | None => ret None
  | Some n => ret (Some n)
  end.

Definition updateNodeSLOSpec (nodeSLO : option NodeSLO) : M unit :=
  r <- getMgr ;;
  (* r.nodeSLO.Spec = nodeSLO.Spec *)
  match r.(resmanager.nodeSLO), nodeSLO with
  | Some old, Some new =>
      putMgr (set_nodeSLO r (Some (set_Spec old (Spec new)))) ;;;
      mergeNodeSLOSpec nodeSLO ;;;
      klog SevInfo "update nodeSLO content: old %s, new %s"
  | _, _ => panic
  end.

End Store.

Definition hasSynced : M bool :=
  r <- getMgr ;;
  ret (match r.(resmanager.nodeSLO) with
       | Some n =>
           match ResourceUsedThresholdWithBE (Spec n) with
           | Some _ => true
           | None => false
           end
       | None => false
       end).

(** A feature-config lookup fails on an invalid NodeSLO or on a feature it
    does not know. *)
Inductive featureError :=
| InvalidNodeSLO (nodeSLO : option NodeSLO)
| UnsupportedFeature (feature : Feature).

Section FeatureGate.

(** The feature names of pkg/features. *)
Variables BECPUSuppress BEMemoryEvict : Feature.

(** isFeatureDisabled returns whether the featuregate is disabled by nodeSLO
    config *)
Definition isFeatureDisabled (nodeSLO : option NodeSLO) (feature : Feature)
  : bool * option featureError :=
  match nodeSLO with
  | None => (true, Some (InvalidNodeSLO nodeSLO))
  | Some n =>
      if NodeSLOSpec_is_zero (Spec n) then (true, Some (InvalidNodeSLO nodeSLO))
      else
        let spec := Spec n in
        if bool_decide (feature = BECPUSuppress)
           || bool_decide (feature = BEMemoryEvict) then
          match ResourceUsedThresholdWithBE spec with
          | None => (true, Some (InvalidNodeSLO nodeSLO))
          | Some t =>
              match Enable t with
              | None => (true, Some (InvalidNodeSLO nodeSLO))
              | Some enable => (negb enable, None)
              end
          end
        else (true, Some (UnsupportedFeature feature))
  end.

End FeatureGate.

(** *** The eviction pipeline *)
Section Eviction.

(** The cluster's pod-disruption API: what the eviction of namespace/name
    answers, given everything the manager has done up to and including this
    call.  [None] is a nil error. *)
Variable EvictV1 :
  list Effect -> string -> string -> option apierrors.StatusError.

Definition kubeClient_EvictV1 (namespace name : string)
  : M (option apierrors.StatusError) :=
  emit (EvictV1Call namespace name) ;;;
  h <- getEffects ;;
  ret (EvictV1 h namespace name).

(** fmt.Sprintf("evict Pod:%s, reason: %s, message: %v", ...) *)
Definition podEvictMessage (pod : Pod) (reason message : string) : string :=
  "evict Pod:" +:+ Name (Pod_ObjectMeta pod) +:+ ", reason: " +:+ reason
  +:+ ", message: " +:+ message.

(** The effects of an eviction request: the audit record, then the call. *)
Definition evictRequest (pod : Pod) (reason message : string) : list Effect :=
  let meta := Pod_ObjectMeta pod in
  [AuditPod (Namespace meta) (Name meta) reason message;
   EvictV1Call (Namespace meta) (Name meta)].

(** What the API answers to the eviction of [pod] requested from [w]. *)
Definition evictAnswer (w : World) (pod : Pod) (reason message : string)
  : option apierrors.StatusError :=
  EvictV1 (effects w ++ evictRequest pod reason message)
    (Namespace (Pod_ObjectMeta pod)) (Name (Pod_ObjectMeta pod)).

(** The events of the two outcomes that record one. *)
Definition successEvent (pod : Pod) (node : Node) (reason message : string)
  : Effect :=
  Eventf (Name (Node_ObjectMeta node)) EventTypeWarning evictPodSuccess
    (podEvictMessage pod reason message).

Definition failEvent (pod : Pod) (node : Node) (reason message : string)
  : Effect :=
  Eventf (Name (Node_ObjectMeta node)) EventTypeWarning evictPodFail
    (podEvictMessage pod reason message).

Definition evictPod (evictPod : Pod) (node : Node) (reason message : string)
  : M bool :=
  let meta := Pod_ObjectMeta evictPod in
  let msg := podEvictMessage evictPod reason message in
  emit (AuditPod (Namespace meta) (Name meta) reason message) ;;;
  err <- kubeClient_EvictV1 (Namespace meta) (Name meta) ;;
  match err with
  | None =>
      emit (Eventf (Name (Node_ObjectMeta node)) EventTypeWarning
              evictPodSuccess msg) ;;;
      emit (RecordPodEviction reason) ;;;
      klog SevInfo "evict pod %v/%v success, reason: %v" ;;;
      ret true
  | Some e =>
      if negb (apierrors.IsNotFound e) then
        emit (Eventf (Name (Node_ObjectMeta node)) EventTypeWarning
                evictPodFail msg) ;;;
        klog SevError "evict pod %v/%v failed, reason: %v, error: %v" ;;;
        ret false
      else ret true
  end.

Definition evictPodIfNotEvicted (pod : Pod) (node : Node)
  (reason message : string) : M unit :=
  found <- podsEvicted_Get (UID (Pod_ObjectMeta pod)) ;;
  match found with
  | Some _ => klog SevV5 "Pod has been evicted! podID: %v, evict reason: %s"
  | None =>
      success <- evictPod pod node reason message ;;
      if success : bool then
        podsEvicted_SetDefault (UID (Pod_ObjectMeta pod))
          (UID (Pod_ObjectMeta pod)) ;;;
        ret tt
      else ret tt
  end.

Fixpoint evictPodsIfNotEvicted (evictPods : list Pod) (node : Node)
  (reason message : string) : M unit :=
  match evictPods with
  | [] => ret tt
  | pod :: rest =>
      evictPodIfNotEvicted pod node reason message ;;;
      evictPodsIfNotEvicted rest node reason message
  end.

End Eviction.

(** *** Direct container stop *)
Section KillContainers.

(** The helpers of pkg/util and pkg/runtime, in other files of the
    repository: the resolver of a container's id and status by name, the
    parser of a container id into runtime type and bare id, the handler
    registry, and what a stop request answers (given the effects so far). *)
Variable FindContainerIdAndStatusByName :
  PodStatus -> string -> string * option ContainerStatus * option string.
Variable ParseContainerId : string -> string * string * option string.
Variable GetRuntimeHandler : string -> option RuntimeHandler * option string.
Variable StopContainer :
  list Effect -> RuntimeHandler -> string -> Z -> option string.

Definition runtimeHandler_StopContainer (h : RuntimeHandler)
  (containerID : string) (gracePeriod : Z) : M (option string) :=
  emit (StopContainerCall h containerID gracePeriod) ;;;
  hist <- getEffects ;;
  ret (StopContainer hist h containerID gracePeriod).

(** The body of the loop of [killContainers] over [pod.Spec.Containers]:
    [return] ends the walk, [continue] and the end of the body go on with
    the remaining containers. *)
Fixpoint killContainers_loop (pod : Pod) (message : string)
  (containers : list Container) : M unit :=
  match containers with
  | [] => ret tt
  | container :: rest =>
      let '(containerID, containerStatus, err) :=
        FindContainerIdAndStatusByName (Pod_Status pod)
          (Container_Name container) in
      match err with
      | Some _ =>
          klog SevError "failed to find container id and status, error: %v"
          (* return *)
      | None =>
          match containerStatus with
          | None => ret tt (* return *)
          | Some status =>
              match Running (ContainerStatus_State status) with
              | None => ret tt (* return *)
              | Some _ =>
                  if bool_decide (containerID <> EmptyString) then
                    let '(runtimeType, _, _) :=
                      ParseContainerId (ContainerID status) in
                    match GetRuntimeHandler runtimeType with
                    | (Some runtimeHandler, None) =>
                        err <- runtimeHandler_StopContainer runtimeHandler
                                 containerID 0 ;;
                        match err with
                        | Some _ =>
                            klog SevError "%s, stop container error! error: %v"
                        | None => ret tt
                        end ;;;
                        killContainers_loop pod message rest
                    | _ =>
                        klog SevError
                          "%s, kill container(%s) error! GetRuntimeHandler fail! error: %v" ;;;
                        (* continue *)
                        killContainers_loop pod message rest
                    end
                  else
                    klog SevWarning
                      "%s, get container ID failed, pod %s/%s containerName %s status: %v" ;;;
                    killContainers_loop pod message rest
              end
          end
      end
  end.

(** killContainers kills containers inside the pod *)
Definition killContainers (pod : Pod) (message : string) : M unit :=
  killContainers_loop pod message (Containers (Pod_Spec pod)).

End KillContainers.

(** *** The informer's event handlers, registered by [NewResManager] *)

(** An [interface{}] handed to a handler: a [*NodeSLO] (possibly a nil
    pointer) or a value of another dynamic type, the nil interface
    included. *)
Inductive Object :=
| ObjNodeSLO (p : option NodeSLO)
| ObjOther (dynamicType : string).

(** The string behind a policy value; two policy values are the same Go
    value exactly when their strings are equal. *)
Definition CPUSuppressPolicy_string (p : CPUSuppressPolicy) : string :=
  match p with
  | CPUSuppressPolicyUnset => EmptyString
  | CPUSetPolicy => "cpuset"
  | CPUCfsQuotaPolicy => "cfsQuota"
  | CPUSuppressPolicyOther s => s
  end.

Definition CPUBurstPolicy_string (p : CPUBurstPolicy) : string :=
  match p with
  | CPUBurstPolicyUnset => EmptyString
  | CPUBurstNone => "none"
  | CPUBurstOnly => "cpuBurstOnly"
  | CFSQuotaBurstOnly => "cfsQuotaBurstOnly"
  | CPUBurstAuto => "auto"
  | CPUBurstPolicyOther s => s
  end.

Definition optionEqual {A} (eqb : A -> A -> bool) (x y : option A) : bool :=
  match x, y with
  | None, None => true
  | Some a, Some b => eqb a b
  | _, _ => false
  end.

Definition int64PtrEqual : option Z -> option Z -> bool := optionEqual Z.eqb.
Definition boolPtrEqual : option bool -> option bool -> bool :=
  optionEqual Bool.eqb.

(** [reflect.DeepEqual] on the types of a NodeSLOSpec: pointers are equal
    when both are nil or both point to deeply equal values, structs when
    their fields are, strings and integers when they are the same. *)
Definition DeepEqual_ResourceThresholdStrategy
  (a b : ResourceThresholdStrategy) : bool :=
  boolPtrEqual (Enable a) (Enable b)
  && int64PtrEqual (CPUSuppressThresholdPercent a)
       (CPUSuppressThresholdPercent b)
  && String.eqb (CPUSuppressPolicy_string (CPUSuppressPolicy_ a))
       (CPUSuppressPolicy_string (CPUSuppressPolicy_ b))
  && int64PtrEqual (MemoryEvictThresholdPercent a)
       (MemoryEvictThresholdPercent b)
  && int64PtrEqual (MemoryEvictLowerPercent a) (MemoryEvictLowerPercent b).

Definition DeepEqual_MemoryQoS (a b : MemoryQoS) : bool :=
  int64PtrEqual (MinLimitPercent a) (MinLimitPercent b)
  && int64PtrEqual (LowLimitPercent a) (LowLimitPercent b)
  && int64PtrEqual (ThrottlingPercent a) (ThrottlingPercent b)
  && int64PtrEqual (WmarkRatio a) (WmarkRatio b)
  && int64PtrEqual (WmarkScalePermill a) (WmarkScalePermill b)
  && int64PtrEqual (WmarkMinAdj a) (WmarkMinAdj b)
  && int64PtrEqual (PriorityEnable a) (PriorityEnable b)
  && int64PtrEqual (Priority a) (Priority b)
  && int64PtrEqual (OomKillGroup a) (OomKillGroup b).

Definition DeepEqual_MemoryQoSCfg (a b : MemoryQoSCfg) : bool :=
  boolPtrEqual (MemoryQoSCfg_Enable a) (MemoryQoSCfg_Enable b)
  && DeepEqual_MemoryQoS (MemoryQoSCfg_MemoryQoS a) (MemoryQoSCfg_MemoryQoS b).

Definition DeepEqual_ResctrlQoS (a b : ResctrlQoS) : bool :=
  int64PtrEqual (CATRangeStartPercent a) (CATRangeStartPercent b)
  && int64PtrEqual (CATRangeEndPercent a) (CATRangeEndPercent b)
  && int64PtrEqual (MBAPercent a) (MBAPercent b).

Definition DeepEqual_ResctrlQoSCfg (a b : ResctrlQoSCfg) : bool :=
  boolPtrEqual (ResctrlQoSCfg_Enable a) (ResctrlQoSCfg_Enable b)
  && DeepEqual_ResctrlQoS (ResctrlQoSCfg_ResctrlQoS a)
       (ResctrlQoSCfg_ResctrlQoS b).

Definition DeepEqual_ResourceQoS (a b : ResourceQoS) : bool :=
  optionEqual DeepEqual_MemoryQoSCfg (ResourceQoS_MemoryQoS a)
    (ResourceQoS_MemoryQoS b)
  && optionEqual DeepEqual_ResctrlQoSCfg (ResourceQoS_ResctrlQoS a)
       (ResourceQoS_ResctrlQoS b).

Definition DeepEqual_ResourceQoSStrategy (a b : ResourceQoSStrategy) : bool :=
  optionEqual DeepEqual_ResourceQoS (LSR a) (LSR b)
  && optionEqual DeepEqual_ResourceQoS (LS a) (LS b)
  && optionEqual DeepEqual_ResourceQoS (BE a) (BE b)
  && optionEqual DeepEqual_ResourceQoS (System a) (System b)
  && optionEqual DeepEqual_ResourceQoS (CgroupRoot a) (CgroupRoot b).

Definition DeepEqual_CPUBurstConfig (a b : CPUBurstConfig) : bool :=
  String.eqb (CPUBurstPolicy_string (Policy a)) (CPUBurstPolicy_string (Policy b))
  && int64PtrEqual (CPUBurstPercent a) (CPUBurstPercent b)
  && int64PtrEqual (CFSQuotaBurstPercent a) (CFSQuotaBurstPercent b)
  && int64PtrEqual (CFSQuotaBurstPeriodSeconds a)
       (CFSQuotaBurstPeriodSeconds b).

Definition DeepEqual_CPUBurstStrategy (a b : CPUBurstStrategy) : bool :=
  DeepEqual_CPUBurstConfig (CPUBurstStrategy_CPUBurstConfig a)
    (CPUBurstStrategy_CPUBurstConfig b)
  && int64PtrEqual (SharePoolThresholdPercent a) (SharePoolThresholdPercent b).

Definition DeepEqual_NodeSLOSpec (a b : NodeSLOSpec) : bool :=
  optionEqual DeepEqual_ResourceThresholdStrategy
    (ResourceUsedThresholdWithBE a) (ResourceUsedThresholdWithBE b)
  && optionEqual DeepEqual_ResourceQoSStrategy
       (ResourceQoSStrategy_ a) (ResourceQoSStrategy_ b)
  && optionEqual DeepEqual_CPUBurstStrategy
       (CPUBurstStrategy_ a) (CPUBurstStrategy_ b).

Section Handlers.

Variable DefaultNodeSLOSpecConfig : NodeSLOSpec.
Variable mergeSLOSpecResourceUsedThresholdWithBE :
  option ResourceThresholdStrategy -> option ResourceThresholdStrategy ->
  option ResourceThresholdStrategy.
Variable mergeSLOSpecResourceQoSStrategy :
  option ResourceQoSStrategy -> option ResourceQoSStrategy ->
  option ResourceQoSStrategy.
Variable mergeNoneResourceQoSIfDisabled :
  option ResourceQoSStrategy -> option ResourceQoSStrategy.
Variable mergeSLOSpecCPUBurstStrategy :
  option CPUBurstStrategy -> option CPUBurstStrategy ->
  option CPUBurstStrategy.

(** The AddFunc of the NodeSLO informer. *)
Definition AddFunc (obj : Object) : M unit :=
  match obj with
  | ObjNodeSLO nodeSLO =>
      createNodeSLO DefaultNodeSLOSpecConfig
        mergeSLOSpecResourceUsedThresholdWithBE mergeSLOSpecResourceQoSStrategy
        mergeNoneResourceQoSIfDisabled mergeSLOSpecCPUBurstStrategy nodeSLO ;;;
      klog SevInfo "create NodeSLO %v"
  | ObjOther _ =>
      klog SevError "node slo informer add func parse nodeSLO failed"
  end.

(** The UpdateFunc of the NodeSLO informer.  Reading [.Spec] through a nil
    [*NodeSLO] panics. *)
Definition UpdateFunc (oldObj newObj : Object) : M unit :=
  match oldObj, newObj with
  | ObjNodeSLO oldNodeSLO, ObjNodeSLO newNodeSLO =>
      match oldNodeSLO, newNodeSLO with
      | Some o, Some n =>
          if DeepEqual_NodeSLOSpec (Spec o) (Spec n) then
            klog SevV5 "find NodeSLO spec %s has not changed"
          else
            klog SevInfo "update NodeSLO spec %v" ;;;
            updateNodeSLOSpec DefaultNodeSLOSpecConfig
              mergeSLOSpecResourceUsedThresholdWithBE
              mergeSLOSpecResourceQoSStrategy mergeNoneResourceQoSIfDisabled
              mergeSLOSpecCPUBurstStrategy newNodeSLO
      | _, _ => panic
      end
  | _, _ =>
      klog SevError
        "unable to convert object to *slov1alpha1.NodeSLO, old %T, new %T"
  end.

End Handlers.

End resmanager.

(** ** Reading a list of effects *)
Module trace.
Import resmanager.

Definition isEvictV1Call (e : Effect) : bool :=
  match e with EvictV1Call _ _ => true | _ => false end.

Definition isStopContainerCall (e : Effect) : bool :=
  match e with StopContainerCall _ _ _ => true | _ => false end.

Definition isKlog (e : Effect) : bool :=
  match e with Klog _ _ => true | _ => false end.

(** The eviction requests sent to the API, and the stop requests sent to the
    container runtimes, in order. *)
Definition evictCalls (es : list Effect) : list Effect :=
  List.filter isEvictV1Call es.

Definition stopCalls (es : list Effect) : list Effect :=
  List.filter isStopContainerCall es.

End trace.

(** ** Concrete inputs *)
Module samples.
Import metav1 v1alpha1 corev1 resmanager.

Definition meta (name uid : string) : ObjectMeta :=
  {| Name := name; Namespace := "default"; UID := uid;
     ResourceVersion := "1"; Generation := 1;
     Labels := ∅; Annotations := ∅ |}.

Definition running : ContainerState :=
  {| Running := Some {| StartedAt := 0 |} |}.

Definition podA : Pod :=
  {| Pod_ObjectMeta := meta "pod-a" "uid-a";
     Pod_Spec := {| Containers := [ {| Container_Name := "main";
                                       Container_Image := "busybox" |} ] |};
     Pod_Status := {| InitContainerStatuses := [];
                      ContainerStatuses :=
                        [ {| ContainerStatus_Name := "main";
                             ContainerStatus_State := running;
                             ContainerID := "containerd://c-main" |} ] |} |}.

Definition podB : Pod :=
  {| Pod_ObjectMeta := meta "pod-b" "uid-b";
     Pod_Spec := Pod_Spec podA;
     Pod_Status := Pod_Status podA |}.

Definition node0 : Node := {| Node_ObjectMeta := meta "node-0" "uid-node-0" |}.

Definition mgr0 : resmanager.resmanager :=
  {| nodeName := "node-0";
     podsEvicted := expireCache.NewCache 300;
     nodeSLO := None |}.

(** A fresh manager at time 1000, nothing done yet. *)
Definition world0 : World := {| mgr := mgr0; clock := 1000; effects := [] |}.

(** The same with pod-a recorded as evicted at time 900. *)
Definition worldEvictedA : World :=
  {| mgr := set_podsEvicted mgr0
              (fst (expireCache.SetDefault (podsEvicted mgr0) 900
                      "uid-a" "uid-a"));
     clock := 1000; effects := [] |}.

Definition errNotFound : apierrors.StatusError :=
  {| apierrors.ErrReason := apierrors.StatusReasonNotFound;
     apierrors.ErrMessage := "pods not found" |}.

Definition errTooManyRequests : apierrors.StatusError :=
  {| apierrors.ErrReason := apierrors.StatusReasonTooManyRequests;
     apierrors.ErrMessage := "disruption budget" |}.

(** Three pod-disruption APIs: every pod is already gone; every eviction is
    refused; every eviction is accepted. *)
Definition apiAllGone (_ : list Effect) (_ _ : string)
  : option apierrors.StatusError := Some errNotFound.
Definition apiAllRefused (_ : list Effect) (_ _ : string)
  : option apierrors.StatusError := Some errTooManyRequests.
Definition apiAllAccepted (_ : list Effect) (_ _ : string)
  : option apierrors.StatusError := None.

(** A NodeSLO that only sets the CPU suppression threshold, one with an
    empty spec, and one whose threshold block switches the strategy off. *)
Definition sloMeta : ObjectMeta := meta "node-0" "uid-slo".

Definition sloType : TypeMeta :=
  {| Kind := "NodeSLO"; APIVersion := "slo.koordinator.sh/v1alpha1" |}.

Definition thresholdOnly (enable : option bool) (cpu : option Z)
  : ResourceThresholdStrategy :=
  {| Enable := enable; CPUSuppressThresholdPercent := cpu;
     CPUSuppressPolicy_ := CPUSuppressPolicyUnset;
     MemoryEvictThresholdPercent := None;
     MemoryEvictLowerPercent := None |}.

Definition sloWith (t : option ResourceThresholdStrategy) : NodeSLO :=
  {| NodeSLO_TypeMeta := sloType; NodeSLO_ObjectMeta := sloMeta;
     Spec := {| ResourceUsedThresholdWithBE := t;
                ResourceQoSStrategy_ := None;
                CPUBurstStrategy_ := None |};
     Status := Build_NodeSLOStatus |}.

Definition sloCPU80 : NodeSLO := sloWith (Some (thresholdOnly None (Some 80))).
Definition sloEmpty : NodeSLO := sloWith None.
Definition sloOff : NodeSLO :=
  sloWith (Some (thresholdOnly (Some false) None)).

(** Modelled from the spec: a default configuration and the merge functions
    of the package (not among the files at hand) to run the store with.  The
    threshold block is merged leaf by leaf, an incoming leaf winning over
    the default one and a nil incoming block inheriting the default block;
    this default has no QoS and no burst block, so there the incoming block
    is kept when there is one. *)
Definition defaultSpec : NodeSLOSpec :=
  {| ResourceUsedThresholdWithBE :=
       Some {| Enable := Some true;
               CPUSuppressThresholdPercent := Some 65;
               CPUSuppressPolicy_ := CPUSetPolicy;
               MemoryEvictThresholdPercent := Some 70;
               MemoryEvictLowerPercent := None |};
     ResourceQoSStrategy_ := None;
     CPUBurstStrategy_ := None |}.

Definition orElse {A} (x y : option A) : option A :=
  match x with Some _ => x | None => y end.

Definition mergeThreshold (d n : option ResourceThresholdStrategy)
  : option ResourceThresholdStrategy :=
  match d, n with
  | Some d, Some n =>
      Some {| Enable := orElse (Enable n) (Enable d);
              CPUSuppressThresholdPercent :=
                orElse (CPUSuppressThresholdPercent n)
                  (CPUSuppressThresholdPercent d);
              CPUSuppressPolicy_ :=
                match CPUSuppressPolicy_ n with
                | CPUSuppressPolicyUnset => CPUSuppressPolicy_ d
                | p => p
                end;
              MemoryEvictThresholdPercent :=
                orElse (MemoryEvictThresholdPercent n)
                  (MemoryEvictThresholdPercent d);
              MemoryEvictLowerPercent :=
                orElse (MemoryEvictLowerPercent n)
                  (MemoryEvictLowerPercent d) |}
  | _, _ => orElse n d
  end.

Definition mergeQoS (d n : option ResourceQoSStrategy)
  : option ResourceQoSStrategy := orElse n d.

Definition keepQoS (q : option ResourceQoSStrategy)
  : option ResourceQoSStrategy := q.

Definition mergeBurst (d n : option CPUBurstStrategy)
  : option CPUBurstStrategy := orElse n d.

(** A manager whose store holds [sloEmpty]. *)
Definition worldStored : World :=
  {| mgr := set_nodeSLO mgr0 (Some sloEmpty); clock := 1000; effects := [] |}.

(** Modelled from the spec: the helpers of pkg/util and pkg/runtime (not
    among the files at hand) to run [killContainers] with.  A container id
    is runtime://id; a container is resolved by name among the statuses that
    carry an id, which yields its bare id; the registry has a handler for
    docker and for containerd; a stop request fails for the ids listed in
    [stuck]. *)
Fixpoint splitScheme (s : string) : option (string * string) :=
  match s with
  | EmptyString => None
  | String c rest =>
      if String.prefix "://" s then
        Some (EmptyString, String.substring 3 (String.length s - 3) s)
      else match splitScheme rest with
           | Some (cType, cID) => Some (String c cType, cID)
           | None => None
           end
  end.

Definition parseContainerId (data : string) : string * string * option string :=
  match splitScheme data with
  | Some (cType, cID) => (cType, cID, None)
  | None => (EmptyString, EmptyString, Some "invalid container ID")
  end.

Fixpoint findStatus (statuses : list ContainerStatus) (name : string)
  : string * option ContainerStatus * option string :=
  match statuses with
  | [] => (EmptyString, None,
           Some "unable to find ID for container in pod status")
  | st :: rest =>
      if bool_decide (ContainerStatus_Name st = name)
         && bool_decide (ContainerID st <> EmptyString) then
        match parseContainerId (ContainerID st) with
        | (_, cID, None) => (cID, Some st, None)
        | (_, _, Some err) => (EmptyString, None, Some err)
        end
      else findStatus rest name
  end.

Definition findContainerIdAndStatusByName (status : PodStatus) (name : string)
  : string * option ContainerStatus * option string :=
  findStatus (InitContainerStatuses status ++ ContainerStatuses status) name.

Definition getRuntimeHandler (runtimeType : string)
  : option RuntimeHandler * option string :=
  if bool_decide (runtimeType = "docker")
     || bool_decide (runtimeType = "containerd") then
    (Some {| runtimeName := runtimeType |}, None)
  else (None, Some "runtime type not supported").

Definition stopContainer (stuck : list string) (_ : list Effect)
  (_ : RuntimeHandler) (containerID : string) (_ : Z) : option string :=
  if bool_decide (containerID ∈ stuck) then Some "stop timed out" else None.

Definition container (name : string) : Container :=
  {| Container_Name := name; Container_Image := "busybox" |}.

Definition runningStatus (name id : string) : ContainerStatus :=
  {| ContainerStatus_Name := name; ContainerStatus_State := running;
     ContainerID := id |}.

(** A container that is still waiting: no id, not running. *)
Definition waitingStatus (name : string) : ContainerStatus :=
  {| ContainerStatus_Name := name;
     ContainerStatus_State := {| Running := None |};
     ContainerID := EmptyString |}.

Definition podOf (statuses : list ContainerStatus) : Pod :=
  {| Pod_ObjectMeta := meta "pod-c" "uid-c";
     Pod_Spec := {| Containers := [container "sidecar"; container "main"] |};
     Pod_Status := {| InitContainerStatuses := [];
                      ContainerStatuses := statuses |} |}.

(** Two containers; the first has no id in the pod status yet, the second
    runs. *)
Definition podSidecarWaiting : Pod :=
  podOf [waitingStatus "sidecar"; runningStatus "main" "containerd://c-main"].

(** Two running containers; no handler is registered for the runtime of
    the first. *)
Definition podSidecarForeign : Pod :=
  podOf [runningStatus "sidecar" "cri-o://c-side";
         runningStatus "main" "containerd://c-main"].

(** Two running containers on containerd. *)
Definition podBothRunning : Pod :=
  podOf [runningStatus "sidecar" "containerd://c-side";
         runningStatus "main" "containerd://c-main"].

(** A later version of the NodeSLO of node-0: new resource version and
    generation, and a spec that sets the CPU suppression threshold to 90. *)
Definition sloCPU90v2 : NodeSLO :=
  {| NodeSLO_TypeMeta := sloType;
     NodeSLO_ObjectMeta :=
       {| Name := "node-0"; Namespace := "default"; UID := "uid-slo";
          ResourceVersion := "2"; Generation := 2;
          Labels := ∅; Annotations := ∅ |};
     Spec := {| ResourceUsedThresholdWithBE :=
                  Some (thresholdOnly None (Some 90));
                ResourceQoSStrategy_ := None;
                CPUBurstStrategy_ := None |};
     Status := Build_NodeSLOStatus |}.

(** A pod-disruption API that refuses the first eviction it is asked for
    and accepts the following ones. *)
Definition apiRefuseFirst (history : list Effect) (_ _ : string)
  : option apierrors.StatusError :=
  match trace.evictCalls history with
  | [_] => Some errTooManyRequests
  | _ => None
  end.

(** The world [w] seen at the instant [t]. *)
Definition atTime (t : Z) (w : World) : World :=
  {| mgr := mgr w; clock := t; effects := effects w |}.

(** [world0] after a call for pod-a that the API answered with not-found,
    and after one that it refused. *)
Definition worldAfterGone : World :=
  recordEvicted
    (add_effects world0 (evictRequest podA "memory" "over threshold"))
    "uid-a".

Definition worldAfterRefused : World :=
  add_effects world0
    (evictRequest podA "memory" "over threshold" ++
     [failEvent podA node0 "memory" "over threshold";
      Klog SevError "evict pod %v/%v failed, reason: %v, error: %v"]).

End samples.

(** * Properties *)
Import metav1 v1alpha1 corev1 resmanager.

(** ** The three outcomes of [evictPod] *)
Section EvictPodOutcomes.

Variable EvictV1 :
  list Effect -> string -> string -> option apierrors.StatusError.
Variables (w : World) (pod : Pod) (node : Node) (reason message : string).

Lemma add_effects_app es1 es2 :
  add_effects (add_effects w es1) es2 = add_effects w (es1 ++ es2).
Proof. unfold add_effects; cbn. by rewrite <- app_assoc. Qed.

Lemma evictPod_accepted :
  evictAnswer EvictV1 w pod reason message = None ->
  evictPod EvictV1 pod node reason message w =
  Done (true, add_effects w (evictRequest pod reason message ++
                             [successEvent pod node reason message;
                              RecordPodEviction reason;
                              Klog SevInfo "evict pod %v/%v success, reason: %v"])).
Proof.
  unfold evictAnswer, evictPod, kubeClient_EvictV1, bind, emit, getEffects,
    ret, klog, add_effects, evictRequest, successEvent; cbn.
  rewrite <- !app_assoc; cbn. intros ->; cbn. by rewrite <- !app_assoc.
Qed.

Lemma evictPod_not_found e :
  evictAnswer EvictV1 w pod reason message = Some e ->
  apierrors.IsNotFound e = true ->
  evictPod EvictV1 pod node reason message w =
  Done (true, add_effects w (evictRequest pod reason message)).
Proof.
  unfold evictAnswer, evictPod, kubeClient_EvictV1, bind, emit, getEffects,
    ret, klog, add_effects, evictRequest; cbn.
  rewrite <- !app_assoc; cbn. by intros -> ->.
Qed.

Lemma evictPod_refused e :
  evictAnswer EvictV1 w pod reason message = Some e ->
  apierrors.IsNotFound e = false ->
  evictPod EvictV1 pod node reason message w =
  Done (false, add_effects w (evictRequest pod reason message ++
                              [failEvent pod node reason message;
                               Klog SevError
                                 "evict pod %v/%v failed, reason: %v, error: %v"])).
Proof.
  unfold evictAnswer, evictPod, kubeClient_EvictV1, bind, emit, getEffects,
    ret, klog, add_effects, evictRequest, failEvent; cbn.
  rewrite <- !app_assoc; cbn. intros -> ->; cbn. by rewrite <- !app_assoc.
Qed.

End EvictPodOutcomes.

(** ** [evictPodIfNotEvicted] and the dedup cache *)

Lemma evictPodIfNotEvicted_found EvictV1 w pod node reason message v :
  expireCache.Get (podsEvicted (mgr w)) (clock w) (UID (Pod_ObjectMeta pod))
    = Some v ->
  evictPodIfNotEvicted EvictV1 pod node reason message w =
  Done (tt, add_effects w
              [Klog SevV5 "Pod has been evicted! podID: %v, evict reason: %s"]).
Proof.
  intros Hget.
  unfold evictPodIfNotEvicted, podsEvicted_Get, bind, getMgr, timeNow, ret.
  by rewrite Hget.
Qed.

Lemma evictPodIfNotEvicted_fresh EvictV1 w pod node reason message :
  expireCache.Get (podsEvicted (mgr w)) (clock w) (UID (Pod_ObjectMeta pod))
    = None ->
  evictPodIfNotEvicted EvictV1 pod node reason message w =
  match evictPod EvictV1 pod node reason message w with
  | Done (true, w1) => Done (tt, recordEvicted w1 (UID (Pod_ObjectMeta pod)))
  | Done (false, w1) => Done (tt, w1)
  | NilPointerPanic => NilPointerPanic
  end.
Proof.
  intros Hget.
  unfold evictPodIfNotEvicted, podsEvicted_Get, bind, getMgr, timeNow, ret.
  rewrite Hget.
  destruct (evictPod _ _ _ _ _ w) as [[[] w1]|]; try reflexivity.
  unfold podsEvicted_SetDefault, bind, getMgr, timeNow, putMgr, ret,
    recordEvicted.
  by destruct (expireCache.SetDefault _ _ _ _).
Qed.

Lemma recordEvicted_items w uid :
  expireCache.stopped (podsEvicted (mgr w)) = false ->
  expireCache.items (podsEvicted (mgr (recordEvicted w uid))) !! uid =
  Some {| expireCache.object := uid;
          expireCache.expirationTime :=
            clock w + expireCache.defaultExpiration (podsEvicted (mgr w)) |}.
Proof.
  intros Hs. unfold recordEvicted, expireCache.SetDefault; cbn.
  rewrite Hs; cbn. apply lookup_insert_eq.
Qed.

(** C3: a pod whose UID the dedup cache still holds is skipped: the call
    returns with the manager (cache included) and the clock as they were,
    and its only trace is one verbosity-5 log line; no audit record, no
    eviction API call, no event, no metric. *)
Theorem evictPodIfNotEvicted_cached_is_noop :
  forall EvictV1 w pod node reason message v,
    expireCache.Get (podsEvicted (mgr w)) (clock w) (UID (Pod_ObjectMeta pod))
      = Some v ->
    exists w',
      evictPodIfNotEvicted EvictV1 pod node reason message w = Done (tt, w')
      /\ mgr w' = mgr w
      /\ clock w' = clock w
      /\ effects w' =
         effects w ++
         [Klog SevV5 "Pod has been evicted! podID: %v, evict reason: %s"].
Proof.
  intros * Hget. eexists; split.
  - by eapply evictPodIfNotEvicted_found.
  - done.
Qed.

Lemma evictPodIfNotEvicted_cached_is_noop_witness :
  exists w',
    evictPodIfNotEvicted samples.apiAllAccepted samples.podA samples.node0
      "evictPodByNodeMemoryUsage" "trigger by koordlet" samples.worldEvictedA
    = Done (tt, w')
    /\ mgr w' = mgr samples.worldEvictedA
    /\ clock w' = clock samples.worldEvictedA
    /\ effects w' =
       effects samples.worldEvictedA ++
       [Klog SevV5 "Pod has been evicted! podID: %v, evict reason: %s"].
Proof.
  apply (evictPodIfNotEvicted_cached_is_noop samples.apiAllAccepted
           samples.worldEvictedA samples.podA samples.node0
           "evictPodByNodeMemoryUsage" "trigger by koordlet" "uid-a").
  vm_compute. reflexivity.
Defined.

(** C1 as stated, refuted: it is not the case that a call whose eviction
    request fails with not-found leaves the dedup cache's entry for the
    pod's UID as it was.  On a fresh cache, with an API that answers
    not-found, the entry for uid-a is there after the call. *)
Lemma evictPodIfNotEvicted_not_found_skips_cache_refuted :
  ~ (forall EvictV1 w pod node reason message e w',
       evictAnswer EvictV1 w pod reason message = Some e ->
       apierrors.IsNotFound e = true ->
       evictPodIfNotEvicted EvictV1 pod node reason message w = Done (tt, w') ->
       expireCache.items (podsEvicted (mgr w')) !! UID (Pod_ObjectMeta pod)
       = expireCache.items (podsEvicted (mgr w)) !! UID (Pod_ObjectMeta pod)).
Proof.
  intros H.
  specialize (H samples.apiAllGone samples.world0 samples.podA samples.node0
                "evictPodByNodeMemoryUsage" "trigger by koordlet"
                samples.errNotFound _ eq_refl eq_refl eq_refl).
  vm_compute in H. discriminate H.
Qed.

(** C1, as the code has it: a pod that is not in the dedup cache and whose
    eviction call is answered with not-found is taken as evicted, and the
    dedup entry for its UID is written exactly as after an accepted
    eviction: [evictPodIfNotEvicted] calls [SetDefault] whenever [evictPod]
    returns true, and [evictPod] returns true in both cases.  On a cache
    that has not been shut down the entry maps the UID to itself with the
    default expiry.  The not-found path differs from the accepted one in
    its effects only (no event, no metric). *)
Theorem evictPodIfNotEvicted_not_found_records_entry :
  forall EvictV1 w pod node reason message e,
    expireCache.Get (podsEvicted (mgr w)) (clock w) (UID (Pod_ObjectMeta pod))
      = None ->
    evictAnswer EvictV1 w pod reason message = Some e ->
    apierrors.IsNotFound e = true ->
    evictPodIfNotEvicted EvictV1 pod node reason message w =
      Done (tt, recordEvicted (add_effects w (evictRequest pod reason message))
                  (UID (Pod_ObjectMeta pod)))
    /\ (expireCache.stopped (podsEvicted (mgr w)) = false ->
        expireCache.items
          (podsEvicted
             (mgr (recordEvicted
                     (add_effects w (evictRequest pod reason message))
                     (UID (Pod_ObjectMeta pod)))))
          !! UID (Pod_ObjectMeta pod)
        = Some {| expireCache.object := UID (Pod_ObjectMeta pod);
                  expireCache.expirationTime :=
                    clock w
                    + expireCache.defaultExpiration (podsEvicted (mgr w)) |}).
Proof.
  intros * Hget Hans Hnf. split.
  - rewrite evictPodIfNotEvicted_fresh by exact Hget.
    by rewrite (evictPod_not_found _ _ _ _ _ _ e Hans Hnf).
  - intros Hs. by rewrite recordEvicted_items.
Qed.

Lemma evictPodIfNotEvicted_not_found_records_entry_witness :
  evictPodIfNotEvicted samples.apiAllGone samples.podA samples.node0
    "evictPodByNodeMemoryUsage" "trigger by koordlet" samples.world0 =
    Done (tt, recordEvicted
                (add_effects samples.world0
                   (evictRequest samples.podA "evictPodByNodeMemoryUsage"
                      "trigger by koordlet"))
                "uid-a")
  /\ (false = false ->
      expireCache.items
        (podsEvicted
           (mgr (recordEvicted
                   (add_effects samples.world0
                      (evictRequest samples.podA "evictPodByNodeMemoryUsage"
                         "trigger by koordlet"))
                   "uid-a")))
        !! "uid-a"
      = Some {| expireCache.object := "uid-a";
                expireCache.expirationTime := 1000 + 300 |}).
Proof.
  apply (evictPodIfNotEvicted_not_found_records_entry samples.apiAllGone
           samples.world0 samples.podA samples.node0
           "evictPodByNodeMemoryUsage" "trigger by koordlet"
           samples.errNotFound).
  - vm_compute. reflexivity.
  - reflexivity.
  - reflexivity.
Defined.

Lemma evictPodIfNotEvicted_accepted_records_entry
  EvictV1 w pod node reason message :
  expireCache.Get (podsEvicted (mgr w)) (clock w) (UID (Pod_ObjectMeta pod))
    = None ->
  evictAnswer EvictV1 w pod reason message = None ->
  evictPodIfNotEvicted EvictV1 pod node reason message w =
  Done (tt, recordEvicted
              (add_effects w
                 (evictRequest pod reason message ++
                  [successEvent pod node reason message;
                   RecordPodEviction reason;
                   Klog SevInfo "evict pod %v/%v success, reason: %v"]))
              (UID (Pod_ObjectMeta pod))).
Proof.
  intros Hget Hans.
  rewrite evictPodIfNotEvicted_fresh by exact Hget.
  by rewrite (evictPod_accepted _ _ _ _ _ _ Hans).
Qed.

(** C4: when the eviction call fails with an error other than not-found,
    [evictPod] returns false after recording the evictPodFail event of type
    Warning on the node (and an error log line); [evictPodIfNotEvicted],
    called for a pod that is not in the dedup cache, ends in the same world:
    the manager, hence the dedup cache, is as it was, and the failure event
    is among the effects. *)
Theorem evictPod_refused_event_no_entry :
  forall EvictV1 w pod node reason message e,
    evictAnswer EvictV1 w pod reason message = Some e ->
    apierrors.IsNotFound e = false ->
    let w' :=
      add_effects w
        (evictRequest pod reason message ++
         [failEvent pod node reason message;
          Klog SevError "evict pod %v/%v failed, reason: %v, error: %v"]) in
    evictPod EvictV1 pod node reason message w = Done (false, w')
    /\ In (Eventf (Name (Node_ObjectMeta node)) EventTypeWarning evictPodFail
             (podEvictMessage pod reason message)) (effects w')
    /\ (expireCache.Get (podsEvicted (mgr w)) (clock w)
          (UID (Pod_ObjectMeta pod)) = None ->
        evictPodIfNotEvicted EvictV1 pod node reason message w = Done (tt, w'))
    /\ podsEvicted (mgr w') = podsEvicted (mgr w).
Proof.
  intros * Hans Hnf w'. subst w'.
  pose proof (evictPod_refused _ w pod node reason message e Hans Hnf) as Hev.
  repeat split.
  - exact Hev.
  - cbn. apply in_or_app. right. unfold evictRequest, failEvent; cbn. tauto.
  - intros Hget. rewrite evictPodIfNotEvicted_fresh by exact Hget.
    by rewrite Hev.
Qed.

Lemma evictPod_refused_event_no_entry_witness :
  let w' :=
    add_effects samples.world0
      (evictRequest samples.podA "evictPodByNodeMemoryUsage"
         "trigger by koordlet" ++
       [failEvent samples.podA samples.node0 "evictPodByNodeMemoryUsage"
          "trigger by koordlet";
        Klog SevError "evict pod %v/%v failed, reason: %v, error: %v"]) in
  evictPod samples.apiAllRefused samples.podA samples.node0
    "evictPodByNodeMemoryUsage" "trigger by koordlet" samples.world0
  = Done (false, w')
  /\ In (Eventf "node-0" EventTypeWarning evictPodFail
           (podEvictMessage samples.podA "evictPodByNodeMemoryUsage"
              "trigger by koordlet")) (effects w')
  /\ (expireCache.Get (podsEvicted (mgr samples.world0)) 1000 "uid-a" = None ->
      evictPodIfNotEvicted samples.apiAllRefused samples.podA samples.node0
        "evictPodByNodeMemoryUsage" "trigger by koordlet" samples.world0
      = Done (tt, w'))
  /\ podsEvicted (mgr w') = podsEvicted (mgr samples.world0).
Proof.
  apply (evictPod_refused_event_no_entry samples.apiAllRefused samples.world0
           samples.podA samples.node0 "evictPodByNodeMemoryUsage"
           "trigger by koordlet" samples.errTooManyRequests).
  - reflexivity.
  - reflexivity.
Defined.

(** C10: when the eviction call fails with not-found, [evictPod] returns
    true and its effects are the audit record and the API call, nothing
    more: no event on the node and no eviction metric.  Whatever the API
    answers, the evictPodSuccess event and the metric appear among the
    effects of a call only if the API accepted the eviction, and the
    evictPodFail event only if it failed with an error other than
    not-found. *)
Theorem evictPod_not_found_no_event_no_metric :
  forall EvictV1 w pod node reason message,
    (forall e,
        evictAnswer EvictV1 w pod reason message = Some e ->
        apierrors.IsNotFound e = true ->
        evictPod EvictV1 pod node reason message w =
        Done (true, add_effects w (evictRequest pod reason message)))
    /\ exists b new,
        evictPod EvictV1 pod node reason message w = Done (b, add_effects w new)
        /\ (In (successEvent pod node reason message) new \/
            In (RecordPodEviction reason) new ->
            evictAnswer EvictV1 w pod reason message = None)
        /\ (In (failEvent pod node reason message) new ->
            exists e, evictAnswer EvictV1 w pod reason message = Some e
                      /\ apierrors.IsNotFound e = false).
Proof.
  intros. split.
  - intros e Hans Hnf. by eapply evictPod_not_found.
  - destruct (evictAnswer EvictV1 w pod reason message) as [e|] eqn:Hans.
    + destruct (apierrors.IsNotFound e) eqn:Hnf.
      * eexists _, _. split; [by eapply evictPod_not_found|].
        unfold evictRequest, successEvent, failEvent; cbn.
        split; intros H; exfalso; intuition discriminate.
      * eexists _, _. split; [by eapply evictPod_refused|].
        split.
        -- unfold evictRequest, successEvent, failEvent, evictPodSuccess,
             evictPodFail; cbn.
           intros H; exfalso; intuition discriminate.
        -- intros _. by exists e.
    + eexists _, _. split; [by eapply evictPod_accepted|].
      split; [done|].
      unfold evictRequest, successEvent, failEvent, evictPodSuccess,
        evictPodFail; cbn.
      intros H; exfalso; intuition discriminate.
Qed.

Lemma evictPod_not_found_no_event_no_metric_witness :
  evictPod samples.apiAllGone samples.podA samples.node0
    "evictPodByNodeMemoryUsage" "trigger by koordlet" samples.world0 =
  Done (true, add_effects samples.world0
                (evictRequest samples.podA "evictPodByNodeMemoryUsage"
                   "trigger by koordlet")).
Proof.
  apply (proj1 (evictPod_not_found_no_event_no_metric samples.apiAllGone
                  samples.world0 samples.podA samples.node0
                  "evictPodByNodeMemoryUsage" "trigger by koordlet")
           samples.errNotFound).
  - reflexivity.
  - reflexivity.
Defined.

(** ** The batch helper *)

Lemma evictPod_total EvictV1 w pod node reason message :
  exists b rest,
    evictPod EvictV1 pod node reason message w =
    Done (b, add_effects w (evictRequest pod reason message ++ rest)).
Proof.
  destruct (evictAnswer EvictV1 w pod reason message) as [e|] eqn:Hans.
  - destruct (apierrors.IsNotFound e) eqn:Hnf.
    + exists true, []. rewrite app_nil_r. by eapply evictPod_not_found.
    + eexists false, _. by eapply evictPod_refused.
  - eexists true, _. by eapply evictPod_accepted.
Qed.

Lemma evictPodIfNotEvicted_total EvictV1 w pod node reason message :
  exists w',
    evictPodIfNotEvicted EvictV1 pod node reason message w = Done (tt, w').
Proof.
  destruct (expireCache.Get (podsEvicted (mgr w)) (clock w)
              (UID (Pod_ObjectMeta pod))) as [v|] eqn:Hget.
  - eexists. by eapply evictPodIfNotEvicted_found.
  - rewrite evictPodIfNotEvicted_fresh by exact Hget.
    destruct (evictPod_total EvictV1 w pod node reason message)
      as (b & rest & ->).
    destruct b; eauto.
Qed.

Lemma evictPodIfNotEvicted_attempts EvictV1 w pod node reason message :
  expireCache.Get (podsEvicted (mgr w)) (clock w) (UID (Pod_ObjectMeta pod))
    = None ->
  exists w' rest,
    evictPodIfNotEvicted EvictV1 pod node reason message w = Done (tt, w')
    /\ effects w' = effects w ++ evictRequest pod reason message ++ rest.
Proof.
  intros Hget. rewrite evictPodIfNotEvicted_fresh by exact Hget.
  destruct (evictPod_total EvictV1 w pod node reason message)
    as (b & rest & ->).
  destruct b; eexists _, rest; split; reflexivity.
Qed.

Lemma evictPodsIfNotEvicted_total EvictV1 pods node reason message :
  forall w, exists w',
    evictPodsIfNotEvicted EvictV1 pods node reason message w = Done (tt, w').
Proof.
  induction pods as [|p ps IH]; intros w; cbn.
  - by eexists.
  - unfold bind.
    destruct (evictPodIfNotEvicted_total EvictV1 w p node reason message)
      as (w1 & ->).
    apply IH.
Qed.

Lemma evictPodsIfNotEvicted_app EvictV1 l1 l2 node reason message :
  forall w w1,
    evictPodsIfNotEvicted EvictV1 l1 node reason message w = Done (tt, w1) ->
    evictPodsIfNotEvicted EvictV1 (l1 ++ l2) node reason message w =
    evictPodsIfNotEvicted EvictV1 l2 node reason message w1.
Proof.
  induction l1 as [|p ps IH]; intros w w1; cbn.
  - unfold ret. by intros [= ->].
  - unfold bind.
    destruct (evictPodIfNotEvicted EvictV1 p node reason message w)
      as [[[] w0]|]; [|discriminate].
    apply IH.
Qed.

(** C5: the batch helper runs the per-pod operation on the pods of the list
    one after the other, each from the world its predecessors left, and
    none of them can end the walk: for every way of cutting the list into
    earlier pods, a pod and later pods, the earlier pods finish, the pod is
    processed, the later ones are processed after it, and this is the run of
    the whole list.  Whatever the API answered for the earlier pods, a pod
    that is not in the dedup cache when its turn comes has its eviction
    requested (audit record and API call) at that point. *)
Theorem evictPodsIfNotEvicted_attempts_each_pod :
  forall EvictV1 node reason message l1 pod l2 w,
    exists w1 w2 w3,
      evictPodsIfNotEvicted EvictV1 l1 node reason message w = Done (tt, w1)
      /\ evictPodIfNotEvicted EvictV1 pod node reason message w1
         = Done (tt, w2)
      /\ evictPodsIfNotEvicted EvictV1 l2 node reason message w2
         = Done (tt, w3)
      /\ evictPodsIfNotEvicted EvictV1 (l1 ++ pod :: l2) node reason message w
         = Done (tt, w3)
      /\ (expireCache.Get (podsEvicted (mgr w1)) (clock w1)
            (UID (Pod_ObjectMeta pod)) = None ->
          exists rest,
            effects w2 = effects w1 ++ evictRequest pod reason message ++ rest).
Proof.
  intros.
  destruct (evictPodsIfNotEvicted_total EvictV1 l1 node reason message w)
    as (w1 & H1).
  destruct (evictPodIfNotEvicted_total EvictV1 w1 pod node reason message)
    as (w2 & H2).
  destruct (evictPodsIfNotEvicted_total EvictV1 l2 node reason message w2)
    as (w3 & H3).
  exists w1, w2, w3. repeat split; try assumption.
  - rewrite (evictPodsIfNotEvicted_app _ _ _ _ _ _ _ w1 H1). cbn.
    unfold bind. by rewrite H2.
  - intros Hget.
    destruct (evictPodIfNotEvicted_attempts EvictV1 w1 pod node reason message
                Hget) as (w2' & rest & H2' & Heff).
    rewrite H2 in H2'. injection H2' as <-. by exists rest.
Qed.

Lemma evictPodsIfNotEvicted_attempts_each_pod_witness :
  exists w1 w2 w3,
    evictPodsIfNotEvicted samples.apiAllRefused [samples.podA] samples.node0
      "evictPodByNodeMemoryUsage" "trigger by koordlet" samples.world0
    = Done (tt, w1)
    /\ evictPodIfNotEvicted samples.apiAllRefused samples.podB samples.node0
         "evictPodByNodeMemoryUsage" "trigger by koordlet" w1
       = Done (tt, w2)
    /\ evictPodsIfNotEvicted samples.apiAllRefused [] samples.node0
         "evictPodByNodeMemoryUsage" "trigger by koordlet" w2
       = Done (tt, w3)
    /\ evictPodsIfNotEvicted samples.apiAllRefused
         ([samples.podA] ++ samples.podB :: []) samples.node0
         "evictPodByNodeMemoryUsage" "trigger by koordlet" samples.world0
       = Done (tt, w3)
    /\ (expireCache.Get (podsEvicted (mgr w1)) (clock w1)
          (UID (Pod_ObjectMeta samples.podB)) = None ->
        exists rest,
          effects w2 =
          effects w1 ++
          evictRequest samples.podB "evictPodByNodeMemoryUsage"
            "trigger by koordlet" ++ rest).
Proof.
  exact (evictPodsIfNotEvicted_attempts_each_pod samples.apiAllRefused
           samples.node0 "evictPodByNodeMemoryUsage" "trigger by koordlet"
           [samples.podA] samples.podB [] samples.world0).
Defined.

(** The scenario of two pods where the eviction of the first is refused:
    the second is requested all the same, and neither is recorded. *)
Example evictPodsIfNotEvicted_first_refused :
  evictPodsIfNotEvicted samples.apiAllRefused [samples.podA; samples.podB]
    samples.node0 "r" "m" samples.world0 =
  Done (tt, add_effects samples.world0
              [AuditPod "default" "pod-a" "r" "m";
               EvictV1Call "default" "pod-a";
               failEvent samples.podA samples.node0 "r" "m";
               Klog SevError "evict pod %v/%v failed, reason: %v, error: %v";
               AuditPod "default" "pod-b" "r" "m";
               EvictV1Call "default" "pod-b";
               failEvent samples.podB samples.node0 "r" "m";
               Klog SevError "evict pod %v/%v failed, reason: %v, error: %v"]).
Proof. vm_compute. reflexivity. Qed.

Lemma evictPodIfNotEvicted_other_uid EvictV1 w w' pod node reason message k :
  evictPodIfNotEvicted EvictV1 pod node reason message w = Done (tt, w') ->
  k <> UID (Pod_ObjectMeta pod) ->
  expireCache.Get (podsEvicted (mgr w')) (clock w') k =
  expireCache.Get (podsEvicted (mgr w)) (clock w) k.
Proof.
  intros Hrun Hk.
  destruct (expireCache.Get (podsEvicted (mgr w)) (clock w)
              (UID (Pod_ObjectMeta pod))) as [v|] eqn:Hget.
  - rewrite (evictPodIfNotEvicted_found _ _ _ _ _ _ v Hget) in Hrun.
    by injection Hrun as <-.
  - rewrite evictPodIfNotEvicted_fresh in Hrun by exact Hget.
    destruct (evictPod_total EvictV1 w pod node reason message)
      as (b & rest & Hev).
    rewrite Hev in Hrun. destruct b; injection Hrun as <-; [|done].
    unfold recordEvicted, expireCache.SetDefault, expireCache.Get; cbn.
    destruct (expireCache.stopped (podsEvicted (mgr w))); cbn; [done|].
    by rewrite lookup_insert_ne.
Qed.

(** X15: for a batch of distinct pods none of which is in the dedup cache,
    whatever the API answers to each request, the eviction of every pod of
    the batch is requested. *)
Theorem evictPodsIfNotEvicted_requests_all :
  forall EvictV1 node reason message (pods : list Pod) w,
    NoDup ((fun p => UID (Pod_ObjectMeta p)) <$> pods) ->
    (forall p, p ∈ pods ->
       expireCache.Get (podsEvicted (mgr w)) (clock w) (UID (Pod_ObjectMeta p))
       = None) ->
    exists w' new,
      evictPodsIfNotEvicted EvictV1 pods node reason message w = Done (tt, w')
      /\ effects w' = effects w ++ new
      /\ forall p, p ∈ pods ->
           EvictV1Call (Namespace (Pod_ObjectMeta p)) (Name (Pod_ObjectMeta p))
           ∈ new.
Proof.
  intros EvictV1 node reason message pods.
  induction pods as [|p ps IH]; intros w Hnd Hfresh.
  - exists w, []. cbn. rewrite app_nil_r. repeat split.
    intros p Hp. by apply elem_of_nil in Hp.
  - rewrite fmap_cons in Hnd. apply NoDup_cons in Hnd as [Hp Hnd].
    destruct (evictPodIfNotEvicted_attempts EvictV1 w p node reason message)
      as (w1 & rest & Hrun & Heff).
    { apply Hfresh. by left. }
    destruct (IH w1 Hnd) as (w' & new & Hruns & Heffs & Hall).
    { intros q Hq.
      rewrite (evictPodIfNotEvicted_other_uid _ _ _ _ _ _ _ _ Hrun).
      - apply Hfresh. by right.
      - intros Heq. apply Hp. rewrite <- Heq.
        apply list_elem_of_fmap. by exists q. }
    exists w', ((evictRequest p reason message ++ rest) ++ new).
    split; [|split].
    + cbn. unfold bind. by rewrite Hrun.
    + rewrite Heffs, Heff. by rewrite <- !app_assoc.
    + intros q Hq. apply elem_of_cons in Hq as [->|Hq].
      * apply elem_of_app. left. apply elem_of_app. left.
        unfold evictRequest. apply elem_of_cons. right. by left.
      * apply elem_of_app. right. by apply Hall.
Qed.

(** ** The feature check *)

(** C6: [isFeatureDisabled] fails closed.  When the feature is BECPUSuppress
    or BEMemoryEvict and the NodeSLO carries a threshold block with an
    Enable flag, the result is the negation of the flag and a nil error.
    In each of the other cases (nil NodeSLO, empty spec, nil threshold
    block, nil Enable, a feature that is neither of the two) the result is
    disabled = true with a non-nil error; and one of these cases always
    holds when the first does not. *)
Theorem isFeatureDisabled_fail_closed :
  forall (BECPUSuppress BEMemoryEvict : Feature) nodeSLO feature,
    (forall n t enable,
        nodeSLO = Some n ->
        feature = BECPUSuppress \/ feature = BEMemoryEvict ->
        ResourceUsedThresholdWithBE (Spec n) = Some t ->
        Enable t = Some enable ->
        isFeatureDisabled BECPUSuppress BEMemoryEvict nodeSLO feature
        = (negb enable, None))
    /\ (nodeSLO = None
        \/ (exists n, nodeSLO = Some n /\ NodeSLOSpec_is_zero (Spec n) = true)
        \/ (exists n, nodeSLO = Some n
                      /\ ResourceUsedThresholdWithBE (Spec n) = None)
        \/ (exists n t, nodeSLO = Some n
                        /\ ResourceUsedThresholdWithBE (Spec n) = Some t
                        /\ Enable t = None)
        \/ (feature <> BECPUSuppress /\ feature <> BEMemoryEvict) ->
        exists err,
          isFeatureDisabled BECPUSuppress BEMemoryEvict nodeSLO feature
          = (true, Some err))
    /\ ((exists n t enable,
            nodeSLO = Some n
            /\ (feature = BECPUSuppress \/ feature = BEMemoryEvict)
            /\ ResourceUsedThresholdWithBE (Spec n) = Some t
            /\ Enable t = Some enable)
        \/ (exists err,
              isFeatureDisabled BECPUSuppress BEMemoryEvict nodeSLO feature
              = (true, Some err))).
Proof.
  intros BECPUSuppress BEMemoryEvict nodeSLO feature.
  assert (Hsw : bool_decide (feature = BECPUSuppress)
                || bool_decide (feature = BEMemoryEvict) = true
                <-> feature = BECPUSuppress \/ feature = BEMemoryEvict).
  { rewrite orb_true_iff, !bool_decide_eq_true. tauto. }
  unfold isFeatureDisabled.
  destruct nodeSLO as [n|]; [|repeat split; eauto; try discriminate].
  destruct (ResourceUsedThresholdWithBE (Spec n)) as [t|] eqn:Ht.
  - assert (Hz : NodeSLOSpec_is_zero (Spec n) = false).
    { unfold NodeSLOSpec_is_zero. by rewrite Ht. }
    rewrite Hz.
    destruct (bool_decide (feature = BECPUSuppress)
              || bool_decide (feature = BEMemoryEvict)) eqn:Hf.
    + apply proj1 in Hsw. specialize (Hsw eq_refl).
      destruct (Enable t) as [enable|] eqn:He.
      * repeat split.
        -- intros n' t' enable' [= <-] _ Ht'. rewrite Ht in Ht'.
           injection Ht' as <-. rewrite He. by intros [= ->].
        -- intros [H|[(n' & [= <-] & H)|[(n' & [= <-] & H)
                    |[(n' & t' & [= <-] & H1 & H2)|[H1 H2]]]]].
           ++ discriminate.
           ++ congruence.
           ++ congruence.
           ++ rewrite Ht in H1. injection H1 as <-. congruence.
           ++ tauto.
        -- left. exists n, t, enable. by rewrite Ht.
      * repeat split; eauto.
        intros n' t' enable' [= <-] _ Ht'. rewrite Ht in Ht'.
        injection Ht' as <-. congruence.
    + assert (Hno : ~ (feature = BECPUSuppress \/ feature = BEMemoryEvict)).
      { intros H. apply Hsw in H. congruence. }
      repeat split; eauto. by intros * _ H.
  - destruct (NodeSLOSpec_is_zero (Spec n)) eqn:Hz.
    + repeat split; eauto. intros * [= <-] _ Ht'. congruence.
    + destruct (bool_decide (feature = BECPUSuppress)
                || bool_decide (feature = BEMemoryEvict)) eqn:Hf.
      * repeat split; eauto. intros * [= <-] _ Ht'. congruence.
      * repeat split; eauto. intros * [= <-] _ Ht'. congruence.
Qed.

Lemma isFeatureDisabled_fail_closed_witness :
  isFeatureDisabled "BECPUSuppress" "BEMemoryEvict" (Some samples.sloOff)
    "BEMemoryEvict" = (negb false, None)
  /\ exists err,
      isFeatureDisabled "BECPUSuppress" "BEMemoryEvict" (Some samples.sloCPU80)
        "BECPUSuppress" = (true, Some err).
Proof.
  split.
  - apply (proj1 (isFeatureDisabled_fail_closed "BECPUSuppress" "BEMemoryEvict"
                    (Some samples.sloOff) "BEMemoryEvict")
             samples.sloOff (samples.thresholdOnly (Some false) None) false).
    + reflexivity.
    + right. reflexivity.
    + reflexivity.
    + reflexivity.
  - apply (proj1 (proj2 (isFeatureDisabled_fail_closed "BECPUSuppress"
                           "BEMemoryEvict" (Some samples.sloCPU80)
                           "BECPUSuppress"))).
    right. right. right. left.
    exists samples.sloCPU80, (samples.thresholdOnly None (Some 80)).
    repeat split; reflexivity.
Defined.

(** ** The desired-state store *)

(** C7: [hasSynced] changes nothing and answers true exactly when a NodeSLO
    is stored and its ResourceUsedThresholdWithBE block is non-nil. *)
Theorem hasSynced_iff_stored_with_threshold :
  forall w,
    exists b,
      hasSynced w = Done (b, w)
      /\ (b = true <->
          exists n t,
            nodeSLO (mgr w) = Some n
            /\ ResourceUsedThresholdWithBE (Spec n) = Some t).
Proof.
  intros w. unfold hasSynced, bind, getMgr, ret.
  eexists; split; [reflexivity|].
  destruct (nodeSLO (mgr w)) as [n|].
  - destruct (ResourceUsedThresholdWithBE (Spec n)) as [t|] eqn:Ht.
    + split; [|done]. intros _. by exists n, t.
    + split; [done|]. intros (n' & t' & [= <-] & Ht'). congruence.
  - split; [done|]. by intros (n' & t' & [=] & _).
Qed.

Section StoreProperties.

Variable DefaultNodeSLOSpecConfig : NodeSLOSpec.
Variable mergeSLOSpecResourceUsedThresholdWithBE :
  option ResourceThresholdStrategy -> option ResourceThresholdStrategy ->
  option ResourceThresholdStrategy.
Variable mergeSLOSpecResourceQoSStrategy :
  option ResourceQoSStrategy -> option ResourceQoSStrategy ->
  option ResourceQoSStrategy.
Variable mergeNoneResourceQoSIfDisabled :
  option ResourceQoSStrategy -> option ResourceQoSStrategy.
Variable mergeSLOSpecCPUBurstStrategy :
  option CPUBurstStrategy -> option CPUBurstStrategy ->
  option CPUBurstStrategy.

Local Abbreviation merged :=
  (mergedSpec DefaultNodeSLOSpecConfig mergeSLOSpecResourceUsedThresholdWithBE
     mergeSLOSpecResourceQoSStrategy mergeNoneResourceQoSIfDisabled
     mergeSLOSpecCPUBurstStrategy).
Local Abbreviation update :=
  (updateNodeSLOSpec DefaultNodeSLOSpecConfig
     mergeSLOSpecResourceUsedThresholdWithBE mergeSLOSpecResourceQoSStrategy
     mergeNoneResourceQoSIfDisabled mergeSLOSpecCPUBurstStrategy).
Local Abbreviation create :=
  (createNodeSLO DefaultNodeSLOSpecConfig
     mergeSLOSpecResourceUsedThresholdWithBE mergeSLOSpecResourceQoSStrategy
     mergeNoneResourceQoSIfDisabled mergeSLOSpecCPUBurstStrategy).

Lemma updateNodeSLOSpec_stored w old new :
  nodeSLO (mgr w) = Some old ->
  update (Some new) w =
  Done (tt,
        add_effects
          {| mgr := set_nodeSLO (mgr w)
                      (Some (set_Spec old
                               (merged (set_Spec old (Spec new)) new)));
             clock := clock w; effects := effects w |}
          [Klog SevInfo "update nodeSLO content: old %s, new %s"]).
Proof.
  intros Hold.
  unfold updateNodeSLOSpec, mergeNodeSLOSpec, bind, getMgr, putMgr, klog,
    emit, add_effects.
  rewrite Hold. cbn. reflexivity.
Qed.

Lemma updateNodeSLOSpec_empty_store w incoming :
  nodeSLO (mgr w) = None -> update incoming w = NilPointerPanic.
Proof.
  intros Hnil. unfold updateNodeSLOSpec, bind, getMgr, panic.
  by rewrite Hnil.
Qed.

Lemma createNodeSLO_populates w new :
  create (Some new) w =
  Done (tt,
        add_effects
          {| mgr := set_nodeSLO (mgr w)
                      (Some (set_Spec (set_Spec new (Spec new))
                               (merged (set_Spec new (Spec new)) new)));
             clock := clock w; effects := effects w |}
          [Klog SevInfo "update nodeSLO content: old %s, new %s"]).
Proof.
  unfold createNodeSLO, mergeNodeSLOSpec, bind, getMgr, putMgr, klog, emit,
    add_effects.
  cbn. reflexivity.
Qed.

End StoreProperties.

(** C8: on a populated store, [updateNodeSLOSpec] ends with a stored NodeSLO
    whose TypeMeta, ObjectMeta and Status are those of the object stored
    before, and whose Spec is the incoming spec merged with the defaults;
    the other fields of the manager are untouched. *)
Theorem updateNodeSLOSpec_replaces_spec_only :
  forall DefaultNodeSLOSpecConfig mergeSLOSpecResourceUsedThresholdWithBE
         mergeSLOSpecResourceQoSStrategy mergeNoneResourceQoSIfDisabled
         mergeSLOSpecCPUBurstStrategy w old new,
    nodeSLO (mgr w) = Some old ->
    exists w' stored,
      updateNodeSLOSpec DefaultNodeSLOSpecConfig
        mergeSLOSpecResourceUsedThresholdWithBE mergeSLOSpecResourceQoSStrategy
        mergeNoneResourceQoSIfDisabled mergeSLOSpecCPUBurstStrategy
        (Some new) w = Done (tt, w')
      /\ nodeSLO (mgr w') = Some stored
      /\ NodeSLO_TypeMeta stored = NodeSLO_TypeMeta old
      /\ NodeSLO_ObjectMeta stored = NodeSLO_ObjectMeta old
      /\ Status stored = Status old
      /\ Spec stored =
         mergedSpec DefaultNodeSLOSpecConfig
           mergeSLOSpecResourceUsedThresholdWithBE
           mergeSLOSpecResourceQoSStrategy mergeNoneResourceQoSIfDisabled
           mergeSLOSpecCPUBurstStrategy (set_Spec old (Spec new)) new
      /\ nodeName (mgr w') = nodeName (mgr w)
      /\ podsEvicted (mgr w') = podsEvicted (mgr w).
Proof.
  intros * Hold.
  eexists _, _. split; [by apply updateNodeSLOSpec_stored|].
  cbn. repeat split.
Qed.

(** C9: on an empty store [updateNodeSLOSpec] ends in a nil-pointer panic,
    whatever the incoming object; so a run that finishes started from a
    populated store.  After a [createNodeSLO] that finished, and more
    generally on any populated store, the update of a non-nil object
    finishes. *)
Theorem updateNodeSLOSpec_before_create_panics :
  forall DefaultNodeSLOSpecConfig mergeSLOSpecResourceUsedThresholdWithBE
         mergeSLOSpecResourceQoSStrategy mergeNoneResourceQoSIfDisabled
         mergeSLOSpecCPUBurstStrategy,
    let update :=
      updateNodeSLOSpec DefaultNodeSLOSpecConfig
        mergeSLOSpecResourceUsedThresholdWithBE mergeSLOSpecResourceQoSStrategy
        mergeNoneResourceQoSIfDisabled mergeSLOSpecCPUBurstStrategy in
    let create :=
      createNodeSLO DefaultNodeSLOSpecConfig
        mergeSLOSpecResourceUsedThresholdWithBE mergeSLOSpecResourceQoSStrategy
        mergeNoneResourceQoSIfDisabled mergeSLOSpecCPUBurstStrategy in
    (forall w incoming,
        nodeSLO (mgr w) = None -> update incoming w = NilPointerPanic)
    /\ (forall w incoming w',
          update incoming w = Done (tt, w') -> nodeSLO (mgr w) <> None)
    /\ (forall w old new,
          nodeSLO (mgr w) = Some old ->
          exists w', update (Some new) w = Done (tt, w'))
    /\ (forall w first w1 new,
          create (Some first) w = Done (tt, w1) ->
          exists w2, update (Some new) w1 = Done (tt, w2)).
Proof.
  intros; subst update create. repeat split.
  - intros w incoming. apply updateNodeSLOSpec_empty_store.
  - intros w incoming w' Hrun Hnil.
    rewrite updateNodeSLOSpec_empty_store in Hrun by exact Hnil.
    discriminate.
  - intros w old new Hold. eexists. by apply updateNodeSLOSpec_stored.
  - intros w first w1 new Hcreate.
    rewrite createNodeSLO_populates in Hcreate. injection Hcreate as <-.
    eexists. by eapply updateNodeSLOSpec_stored.
Qed.

Lemma updateNodeSLOSpec_replaces_spec_only_witness :
  exists w' stored,
    updateNodeSLOSpec samples.defaultSpec samples.mergeThreshold
      samples.mergeQoS samples.keepQoS samples.mergeBurst
      (Some samples.sloCPU80) samples.worldStored = Done (tt, w')
    /\ nodeSLO (mgr w') = Some stored
    /\ NodeSLO_TypeMeta stored = NodeSLO_TypeMeta samples.sloEmpty
    /\ NodeSLO_ObjectMeta stored = NodeSLO_ObjectMeta samples.sloEmpty
    /\ Status stored = Status samples.sloEmpty
    /\ Spec stored =
       mergedSpec samples.defaultSpec samples.mergeThreshold samples.mergeQoS
         samples.keepQoS samples.mergeBurst
         (set_Spec samples.sloEmpty (Spec samples.sloCPU80)) samples.sloCPU80
    /\ nodeName (mgr w') = nodeName (mgr samples.worldStored)
    /\ podsEvicted (mgr w') = podsEvicted (mgr samples.worldStored).
Proof.
  apply (updateNodeSLOSpec_replaces_spec_only samples.defaultSpec
           samples.mergeThreshold samples.mergeQoS samples.keepQoS
           samples.mergeBurst samples.worldStored samples.sloEmpty
           samples.sloCPU80).
  reflexivity.
Defined.

Lemma updateNodeSLOSpec_before_create_panics_witness :
  updateNodeSLOSpec samples.defaultSpec samples.mergeThreshold
    samples.mergeQoS samples.keepQoS samples.mergeBurst
    (Some samples.sloCPU80) samples.world0 = NilPointerPanic.
Proof.
  apply (proj1 (updateNodeSLOSpec_before_create_panics samples.defaultSpec
                  samples.mergeThreshold samples.mergeQoS samples.keepQoS
                  samples.mergeBurst) samples.world0 (Some samples.sloCPU80)).
  reflexivity.
Defined.

(** The scenario of a spec that only sets cpuSuppressThresholdPercent: 80,
    with the field-by-field merge of the samples. *)
Example updateNodeSLOSpec_cpu80 :
  (w' ← match updateNodeSLOSpec samples.defaultSpec samples.mergeThreshold
                samples.mergeQoS samples.keepQoS samples.mergeBurst
                (Some samples.sloCPU80) samples.worldStored with
        | Done (_, w') => Some w'
        | NilPointerPanic => None
        end;
   n ← nodeSLO (mgr w');
   ResourceUsedThresholdWithBE (Spec n))
  = Some {| Enable := Some true;
            CPUSuppressThresholdPercent := Some 80;
            CPUSuppressPolicy_ := CPUSetPolicy;
            MemoryEvictThresholdPercent := Some 70;
            MemoryEvictLowerPercent := None |}.
Proof. reflexivity. Qed.

(** ** Direct container stop *)
Section KillContainersSteps.

Variable FindContainerIdAndStatusByName :
  PodStatus -> string -> string * option ContainerStatus * option string.
Variable ParseContainerId : string -> string * string * option string.
Variable GetRuntimeHandler : string -> option RuntimeHandler * option string.
Variable StopContainer :
  list Effect -> RuntimeHandler -> string -> Z -> option string.

Local Abbreviation loop :=
  (killContainers_loop FindContainerIdAndStatusByName ParseContainerId
     GetRuntimeHandler StopContainer).

Variables (pod : Pod) (message : string) (c : Container) (rest : list Container).

(** A failed resolution of the container's id and status ends the walk. *)
Lemma killContainers_loop_lookup_failure w cID st err :
  FindContainerIdAndStatusByName (Pod_Status pod) (Container_Name c)
    = (cID, st, Some err) ->
  loop pod message (c :: rest) w =
  Done (tt, add_effects w
              [Klog SevError "failed to find container id and status, error: %v"]).
Proof. intros Hfind. cbn. by rewrite Hfind. Qed.

(** A failed handler lookup goes on with the remaining containers. *)
Lemma killContainers_loop_handler_failure w cID st r :
  FindContainerIdAndStatusByName (Pod_Status pod) (Container_Name c)
    = (cID, Some st, None) ->
  Running (ContainerStatus_State st) = Some r ->
  cID <> EmptyString ->
  (forall h, GetRuntimeHandler (ParseContainerId (ContainerID st)).1.1
             <> (Some h, None)) ->
  loop pod message (c :: rest) w =
  loop pod message rest
    (add_effects w
       [Klog SevError
          "%s, kill container(%s) error! GetRuntimeHandler fail! error: %v"]).
Proof.
  intros Hfind Hrun Hid Hh. cbn. rewrite Hfind, Hrun.
  rewrite bool_decide_eq_true_2 by exact Hid.
  destruct (ParseContainerId (ContainerID st)) as [[rt ?] ?]; cbn in Hh.
  destruct (GetRuntimeHandler rt) as [[h|] [e|]] eqn:Hg; try reflexivity.
  by destruct (Hh h).
Qed.

(** A stop request, failed or not, goes on with the remaining containers. *)
Lemma killContainers_loop_stop w cID st r h :
  FindContainerIdAndStatusByName (Pod_Status pod) (Container_Name c)
    = (cID, Some st, None) ->
  Running (ContainerStatus_State st) = Some r ->
  cID <> EmptyString ->
  GetRuntimeHandler (ParseContainerId (ContainerID st)).1.1 = (Some h, None) ->
  loop pod message (c :: rest) w =
  loop pod message rest
    (add_effects w
       (StopContainerCall h cID 0 ::
        match StopContainer (effects w ++ [StopContainerCall h cID 0]) h cID 0
        with
        | Some _ => [Klog SevError "%s, stop container error! error: %v"]
        | None => []
        end)).
Proof.
  intros Hfind Hrun Hid Hh. cbn. rewrite Hfind, Hrun.
  rewrite bool_decide_eq_true_2 by exact Hid.
  destruct (ParseContainerId (ContainerID st)) as [[rt ?] ?]; cbn in Hh.
  rewrite Hh.
  unfold runtimeHandler_StopContainer, bind, emit, getEffects, ret, klog,
    add_effects; cbn.
  destruct (StopContainer _ h cID 0); cbn; [|reflexivity].
  by rewrite <- app_assoc.
Qed.

End KillContainersSteps.

(** C2, at a pod of two containers of which the first has no id in the pod
    status and the second runs: the resolution of the first fails,
    [killContainers] logs it and returns, and no stop request is issued for
    the second. *)
Theorem killContainers_lookup_failure_skips_siblings :
  killContainers samples.findContainerIdAndStatusByName samples.parseContainerId
    samples.getRuntimeHandler (samples.stopContainer [])
    samples.podSidecarWaiting "evict by memory" samples.world0
  = Done (tt, add_effects samples.world0
                [Klog SevError
                   "failed to find container id and status, error: %v"]).
Proof. vm_compute. reflexivity. Qed.

(** The sibling paths on the same pair of containers: with no handler for
    the runtime of the first, and with a stop request that fails on the
    first, the second container is stopped. *)
Example killContainers_handler_failure_continues :
  killContainers samples.findContainerIdAndStatusByName samples.parseContainerId
    samples.getRuntimeHandler (samples.stopContainer [])
    samples.podSidecarForeign "evict by memory" samples.world0
  = Done (tt, add_effects samples.world0
                [Klog SevError
                   "%s, kill container(%s) error! GetRuntimeHandler fail! error: %v";
                 StopContainerCall {| runtimeName := "containerd" |}
                   "c-main" 0]).
Proof. vm_compute. reflexivity. Qed.

Example killContainers_stop_failure_continues :
  killContainers samples.findContainerIdAndStatusByName samples.parseContainerId
    samples.getRuntimeHandler (samples.stopContainer ["c-side"])
    samples.podBothRunning "evict by memory" samples.world0
  = Done (tt, add_effects samples.world0
                [StopContainerCall {| runtimeName := "containerd" |}
                   "c-side" 0;
                 Klog SevError "%s, stop container error! error: %v";
                 StopContainerCall {| runtimeName := "containerd" |}
                   "c-main" 0]).
Proof. vm_compute. reflexivity. Qed.

(** * Further properties of the store, the handlers and the pipeline *)

(** ** The store *)
Section StoreFurther.

Variable DefaultNodeSLOSpecConfig : NodeSLOSpec.
Variable mergeSLOSpecResourceUsedThresholdWithBE :
  option ResourceThresholdStrategy -> option ResourceThresholdStrategy ->
  option ResourceThresholdStrategy.
Variable mergeSLOSpecResourceQoSStrategy :
  option ResourceQoSStrategy -> option ResourceQoSStrategy ->
  option ResourceQoSStrategy.
Variable mergeNoneResourceQoSIfDisabled :
  option ResourceQoSStrategy -> option ResourceQoSStrategy.
Variable mergeSLOSpecCPUBurstStrategy :
  option CPUBurstStrategy -> option CPUBurstStrategy ->
  option CPUBurstStrategy.

Local Abbreviation merged :=
  (mergedSpec DefaultNodeSLOSpecConfig mergeSLOSpecResourceUsedThresholdWithBE
     mergeSLOSpecResourceQoSStrategy mergeNoneResourceQoSIfDisabled
     mergeSLOSpecCPUBurstStrategy).
Local Abbreviation update :=
  (updateNodeSLOSpec DefaultNodeSLOSpecConfig
     mergeSLOSpecResourceUsedThresholdWithBE mergeSLOSpecResourceQoSStrategy
     mergeNoneResourceQoSIfDisabled mergeSLOSpecCPUBurstStrategy).
Local Abbreviation create :=
  (createNodeSLO DefaultNodeSLOSpecConfig
     mergeSLOSpecResourceUsedThresholdWithBE mergeSLOSpecResourceQoSStrategy
     mergeNoneResourceQoSIfDisabled mergeSLOSpecCPUBurstStrategy).
Local Abbreviation merge :=
  (mergeNodeSLOSpec DefaultNodeSLOSpecConfig
     mergeSLOSpecResourceUsedThresholdWithBE mergeSLOSpecResourceQoSStrategy
     mergeNoneResourceQoSIfDisabled mergeSLOSpecCPUBurstStrategy).

(** X1: [createNodeSLO] replaces the stored object as a whole, whatever the
    store held: afterwards the store holds the incoming object's TypeMeta,
    ObjectMeta and Status, with the incoming spec merged over the defaults;
    the node name and the dedup cache are untouched.  With a nil incoming
    object it panics. *)
Theorem createNodeSLO_replaces_object :
  forall w new,
    (exists w' stored,
        create (Some new) w = Done (tt, w')
        /\ nodeSLO (mgr w') = Some stored
        /\ NodeSLO_TypeMeta stored = NodeSLO_TypeMeta new
        /\ NodeSLO_ObjectMeta stored = NodeSLO_ObjectMeta new
        /\ Status stored = Status new
        /\ Spec stored = merged new new
        /\ nodeName (mgr w') = nodeName (mgr w)
        /\ podsEvicted (mgr w') = podsEvicted (mgr w)
        /\ clock w' = clock w)
    /\ createNodeSLO DefaultNodeSLOSpecConfig
         mergeSLOSpecResourceUsedThresholdWithBE mergeSLOSpecResourceQoSStrategy
         mergeNoneResourceQoSIfDisabled mergeSLOSpecCPUBurstStrategy None w
       = NilPointerPanic.
Proof.
  intros w new. split; [|reflexivity].
  eexists _, _. split; [apply createNodeSLO_populates|].
  cbn. repeat split.
Qed.

(** [mergeNodeSLOSpec] guards against nil on both sides: with an empty
    store or a nil incoming object it writes one error log line and leaves
    the manager as it is. *)
Theorem mergeNodeSLOSpec_nil_guard :
  forall w incoming,
    nodeSLO (mgr w) = None \/ incoming = None ->
    mergeNodeSLOSpec DefaultNodeSLOSpecConfig
      mergeSLOSpecResourceUsedThresholdWithBE mergeSLOSpecResourceQoSStrategy
      mergeNoneResourceQoSIfDisabled mergeSLOSpecCPUBurstStrategy incoming w
    = Done (tt, add_effects w
                  [Klog SevError
                     "failed to merge with nil nodeSLO, old: %v, new: %v"]).
Proof.
  intros w incoming H.
  unfold mergeNodeSLOSpec, bind, getMgr, klog, emit, add_effects.
  destruct (nodeSLO (mgr w)) as [old|] eqn:Hold, incoming as [new|];
    try reflexivity.
  destruct H; discriminate.
Qed.

(** X3: the stored spec after an update is a function of the incoming
    object alone.  On a populated store, two updates in a row leave the
    manager that the second one alone would have left, so a repeated update
    changes nothing further and the last writer wins. *)
Theorem updateNodeSLOSpec_last_writer_wins :
  forall w old n1 n2,
    nodeSLO (mgr w) = Some old ->
    exists w1 w2 w2',
      updateNodeSLOSpec DefaultNodeSLOSpecConfig
        mergeSLOSpecResourceUsedThresholdWithBE mergeSLOSpecResourceQoSStrategy
        mergeNoneResourceQoSIfDisabled mergeSLOSpecCPUBurstStrategy
        (Some n1) w = Done (tt, w1)
      /\ update (Some n2) w1 = Done (tt, w2)
      /\ update (Some n2) w = Done (tt, w2')
      /\ mgr w2 = mgr w2'
      /\ exists stored,
          nodeSLO (mgr w2) = Some stored /\ Spec stored = merged n2 n2.
Proof.
  intros w old n1 n2 Hold.
  eexists _, _, _. split; [by apply updateNodeSLOSpec_stored|].
  split; [by eapply updateNodeSLOSpec_stored|].
  split; [by apply updateNodeSLOSpec_stored|].
  split; [reflexivity|].
  eexists. split; reflexivity.
Qed.

(** X4: the readiness gate after the first add event.  Right after
    [createNodeSLO] of an object, [hasSynced] answers true exactly when the
    merged threshold block is non-nil or the incoming spec carries one. *)
Theorem createNodeSLO_then_hasSynced :
  forall w new,
    exists w1 b,
      createNodeSLO DefaultNodeSLOSpecConfig
        mergeSLOSpecResourceUsedThresholdWithBE mergeSLOSpecResourceQoSStrategy
        mergeNoneResourceQoSIfDisabled mergeSLOSpecCPUBurstStrategy
        (Some new) w = Done (tt, w1)
      /\ hasSynced w1 = Done (b, w1)
      /\ (b = true <->
          mergeSLOSpecResourceUsedThresholdWithBE
            (ResourceUsedThresholdWithBE DefaultNodeSLOSpecConfig)
            (ResourceUsedThresholdWithBE (Spec new)) <> None
          \/ ResourceUsedThresholdWithBE (Spec new) <> None).
Proof.
  intros w new.
  eexists _, _. split; [apply createNodeSLO_populates|].
  split; [reflexivity|].
  cbn.
  destruct (mergeSLOSpecResourceUsedThresholdWithBE _ _) as [m|].
  - split; [|done]. intros _. by left.
  - destruct (ResourceUsedThresholdWithBE (Spec new)) as [t|].
    + split; [|done]. intros _. by right.
    + split; [done|]. by intros [H|H].
Qed.

End StoreFurther.

Lemma mergeNodeSLOSpec_nil_guard_witness :
  mergeNodeSLOSpec samples.defaultSpec samples.mergeThreshold samples.mergeQoS
    samples.keepQoS samples.mergeBurst (Some samples.sloCPU80) samples.world0
  = Done (tt, add_effects samples.world0
                [Klog SevError
                   "failed to merge with nil nodeSLO, old: %v, new: %v"]).
Proof.
  apply (mergeNodeSLOSpec_nil_guard samples.defaultSpec samples.mergeThreshold
           samples.mergeQoS samples.keepQoS samples.mergeBurst samples.world0
           (Some samples.sloCPU80)).
  left. reflexivity.
Defined.

Lemma updateNodeSLOSpec_last_writer_wins_witness :
  exists w1 w2 w2',
    updateNodeSLOSpec samples.defaultSpec samples.mergeThreshold
      samples.mergeQoS samples.keepQoS samples.mergeBurst
      (Some samples.sloCPU80) samples.worldStored = Done (tt, w1)
    /\ updateNodeSLOSpec samples.defaultSpec samples.mergeThreshold
         samples.mergeQoS samples.keepQoS samples.mergeBurst
         (Some samples.sloCPU90v2) w1 = Done (tt, w2)
    /\ updateNodeSLOSpec samples.defaultSpec samples.mergeThreshold
         samples.mergeQoS samples.keepQoS samples.mergeBurst
         (Some samples.sloCPU90v2) samples.worldStored = Done (tt, w2')
    /\ mgr w2 = mgr w2'
    /\ exists stored,
        nodeSLO (mgr w2) = Some stored
        /\ Spec stored =
           mergedSpec samples.defaultSpec samples.mergeThreshold
             samples.mergeQoS samples.keepQoS samples.mergeBurst
             samples.sloCPU90v2 samples.sloCPU90v2.
Proof.
  apply (updateNodeSLOSpec_last_writer_wins samples.defaultSpec
           samples.mergeThreshold samples.mergeQoS samples.keepQoS
           samples.mergeBurst samples.worldStored samples.sloEmpty
           samples.sloCPU80 samples.sloCPU90v2).
  reflexivity.
Defined.

(** ** The feature check and the readiness gate *)

(** X5: the two features the check knows share one switch: for every
    NodeSLO, the answer (flag and error) for BECPUSuppress is the answer
    for BEMemoryEvict. *)
Theorem isFeatureDisabled_same_for_both_features :
  forall (BECPUSuppress BEMemoryEvict : Feature) nodeSLO,
    isFeatureDisabled BECPUSuppress BEMemoryEvict nodeSLO BECPUSuppress
    = isFeatureDisabled BECPUSuppress BEMemoryEvict nodeSLO BEMemoryEvict.
Proof.
  intros. unfold isFeatureDisabled.
  rewrite (bool_decide_eq_true_2 (BECPUSuppress = BECPUSuppress)) by done.
  rewrite (bool_decide_eq_true_2 (BEMemoryEvict = BEMemoryEvict)) by done.
  by rewrite orb_true_r.
Qed.

(** X6: while the readiness gate is closed, every feature check fails
    closed: if [hasSynced] answers false, then [isFeatureDisabled] on the
    stored NodeSLO returns disabled = true with a non-nil error, for every
    feature. *)
Theorem isFeatureDisabled_before_sync :
  forall (BECPUSuppress BEMemoryEvict : Feature) w feature,
    hasSynced w = Done (false, w) ->
    exists err,
      isFeatureDisabled BECPUSuppress BEMemoryEvict (nodeSLO (mgr w)) feature
      = (true, Some err).
Proof.
  intros B M w feature.
  unfold hasSynced, bind, getMgr, ret, isFeatureDisabled.
  destruct (nodeSLO (mgr w)) as [n|]; [|eauto].
  destruct (ResourceUsedThresholdWithBE (Spec n)) as [t|] eqn:Ht;
    [discriminate|].
  intros _.
  destruct (NodeSLOSpec_is_zero (Spec n)); [eauto|].
  destruct (bool_decide (feature = B) || bool_decide (feature = M)); eauto.
Qed.

Lemma isFeatureDisabled_before_sync_witness :
  exists err,
    isFeatureDisabled "BECPUSuppress" "BEMemoryEvict"
      (nodeSLO (mgr samples.worldStored)) "BECPUSuppress"
    = (true, Some err).
Proof.
  apply (isFeatureDisabled_before_sync "BECPUSuppress" "BEMemoryEvict"
           samples.worldStored "BECPUSuppress").
  reflexivity.
Defined.

(** ** The informer's handlers *)

Lemma optionEqual_refl {A} (eqb : A -> A -> bool) (x : option A) :
  (forall a, eqb a a = true) -> optionEqual eqb x x = true.
Proof. intros H. destruct x; cbn; auto. Qed.

Lemma int64PtrEqual_refl x : int64PtrEqual x x = true.
Proof. apply optionEqual_refl, Z.eqb_refl. Qed.

Lemma boolPtrEqual_refl x : boolPtrEqual x x = true.
Proof. apply optionEqual_refl. by intros []. Qed.

Lemma DeepEqual_ResourceQoS_refl a : DeepEqual_ResourceQoS a a = true.
Proof.
  unfold DeepEqual_ResourceQoS.
  rewrite !optionEqual_refl; [done| |].
  - intros c. unfold DeepEqual_ResctrlQoSCfg, DeepEqual_ResctrlQoS.
    by rewrite boolPtrEqual_refl, !int64PtrEqual_refl.
  - intros c. unfold DeepEqual_MemoryQoSCfg, DeepEqual_MemoryQoS.
    by rewrite boolPtrEqual_refl, !int64PtrEqual_refl.
Qed.

Lemma DeepEqual_NodeSLOSpec_refl a : DeepEqual_NodeSLOSpec a a = true.
Proof.
  unfold DeepEqual_NodeSLOSpec.
  rewrite !optionEqual_refl; [done| | |].
  - intros c. unfold DeepEqual_CPUBurstStrategy, DeepEqual_CPUBurstConfig.
    by rewrite String.eqb_refl, !int64PtrEqual_refl.
  - intros c. unfold DeepEqual_ResourceQoSStrategy.
    by rewrite !optionEqual_refl by apply DeepEqual_ResourceQoS_refl.
  - intros c. unfold DeepEqual_ResourceThresholdStrategy.
    by rewrite boolPtrEqual_refl, String.eqb_refl, !int64PtrEqual_refl.
Qed.

Section HandlerProperties.

Variable DefaultNodeSLOSpecConfig : NodeSLOSpec.
Variable mergeSLOSpecResourceUsedThresholdWithBE :
  option ResourceThresholdStrategy -> option ResourceThresholdStrategy ->
  option ResourceThresholdStrategy.
Variable mergeSLOSpecResourceQoSStrategy :
  option ResourceQoSStrategy -> option ResourceQoSStrategy ->
  option ResourceQoSStrategy.
Variable mergeNoneResourceQoSIfDisabled :
  option ResourceQoSStrategy -> option ResourceQoSStrategy.
Variable mergeSLOSpecCPUBurstStrategy :
  option CPUBurstStrategy -> option CPUBurstStrategy ->
  option CPUBurstStrategy.

(** X7: an update notification whose old and new objects carry the same
    spec is suppressed, whatever else differs between them (resource
    version, labels) and whatever the store holds, even nothing: the
    manager is unchanged and the only trace is a verbosity-5 log line. *)
Theorem UpdateFunc_same_spec_suppressed :
  forall w o n,
    Spec o = Spec n ->
    UpdateFunc DefaultNodeSLOSpecConfig mergeSLOSpecResourceUsedThresholdWithBE
      mergeSLOSpecResourceQoSStrategy mergeNoneResourceQoSIfDisabled
      mergeSLOSpecCPUBurstStrategy (ObjNodeSLO (Some o)) (ObjNodeSLO (Some n)) w
    = Done (tt, add_effects w
                  [Klog SevV5 "find NodeSLO spec %s has not changed"]).
Proof.
  intros w o n Heq. unfold UpdateFunc.
  rewrite Heq, DeepEqual_NodeSLOSpec_refl. reflexivity.
Qed.

(** X8: an add followed by an update with a different spec.  The store ends
    with the identity of the object that was added (its TypeMeta, ObjectMeta
    and Status, not those of the updated object) and with the spec of the
    updated object merged over the defaults. *)
Theorem AddFunc_then_UpdateFunc :
  forall w added updated,
    DeepEqual_NodeSLOSpec (Spec added) (Spec updated) = false ->
    exists w1 w2 stored,
      AddFunc DefaultNodeSLOSpecConfig mergeSLOSpecResourceUsedThresholdWithBE
        mergeSLOSpecResourceQoSStrategy mergeNoneResourceQoSIfDisabled
        mergeSLOSpecCPUBurstStrategy (ObjNodeSLO (Some added)) w
      = Done (tt, w1)
      /\ UpdateFunc DefaultNodeSLOSpecConfig
           mergeSLOSpecResourceUsedThresholdWithBE
           mergeSLOSpecResourceQoSStrategy mergeNoneResourceQoSIfDisabled
           mergeSLOSpecCPUBurstStrategy
           (ObjNodeSLO (Some added)) (ObjNodeSLO (Some updated)) w1
         = Done (tt, w2)
      /\ nodeSLO (mgr w2) = Some stored
      /\ NodeSLO_TypeMeta stored = NodeSLO_TypeMeta added
      /\ NodeSLO_ObjectMeta stored = NodeSLO_ObjectMeta added
      /\ Status stored = Status added
      /\ Spec stored =
         mergedSpec DefaultNodeSLOSpecConfig
           mergeSLOSpecResourceUsedThresholdWithBE
           mergeSLOSpecResourceQoSStrategy mergeNoneResourceQoSIfDisabled
           mergeSLOSpecCPUBurstStrategy updated updated.
Proof.
  intros w added updated Hne.
  unfold AddFunc, UpdateFunc. rewrite Hne.
  unfold bind at 1. rewrite createNodeSLO_populates.
  eexists _, _, _. split; [reflexivity|].
  split.
  - unfold bind, klog, emit. cbv beta iota.
    erewrite updateNodeSLOSpec_stored by reflexivity. reflexivity.
  - cbn. repeat split.
Qed.

(** A notification that does not carry NodeSLO objects is dropped: the
    add handler on such an object, and the update handler as soon as one of
    its two objects is such, leave the manager unchanged and write one
    error log line; they do so on an empty store as well. *)
Theorem handlers_drop_foreign_objects :
  forall w t other,
    AddFunc DefaultNodeSLOSpecConfig mergeSLOSpecResourceUsedThresholdWithBE
      mergeSLOSpecResourceQoSStrategy mergeNoneResourceQoSIfDisabled
      mergeSLOSpecCPUBurstStrategy (ObjOther t) w
    = Done (tt, add_effects w
                  [Klog SevError
                     "node slo informer add func parse nodeSLO failed"])
    /\ UpdateFunc DefaultNodeSLOSpecConfig
         mergeSLOSpecResourceUsedThresholdWithBE
         mergeSLOSpecResourceQoSStrategy mergeNoneResourceQoSIfDisabled
         mergeSLOSpecCPUBurstStrategy (ObjOther t) other w
       = Done (tt, add_effects w
                     [Klog SevError
                        "unable to convert object to *slov1alpha1.NodeSLO, old %T, new %T"])
    /\ UpdateFunc DefaultNodeSLOSpecConfig
         mergeSLOSpecResourceUsedThresholdWithBE
         mergeSLOSpecResourceQoSStrategy mergeNoneResourceQoSIfDisabled
         mergeSLOSpecCPUBurstStrategy other (ObjOther t) w
       = Done (tt, add_effects w
                     [Klog SevError
                        "unable to convert object to *slov1alpha1.NodeSLO, old %T, new %T"]).
Proof.
  intros w t other. repeat split.
  - by destruct other.
Qed.

End HandlerProperties.

Lemma UpdateFunc_same_spec_suppressed_witness :
  UpdateFunc samples.defaultSpec samples.mergeThreshold samples.mergeQoS
    samples.keepQoS samples.mergeBurst
    (ObjNodeSLO (Some samples.sloCPU90v2))
    (ObjNodeSLO (Some (set_Spec samples.sloCPU80 (Spec samples.sloCPU90v2))))
    samples.world0
  = Done (tt, add_effects samples.world0
                [Klog SevV5 "find NodeSLO spec %s has not changed"]).
Proof.
  apply (UpdateFunc_same_spec_suppressed samples.defaultSpec
           samples.mergeThreshold samples.mergeQoS samples.keepQoS
           samples.mergeBurst samples.world0 samples.sloCPU90v2
           (set_Spec samples.sloCPU80 (Spec samples.sloCPU90v2))).
  reflexivity.
Defined.

Lemma AddFunc_then_UpdateFunc_witness :
  exists w1 w2 stored,
    AddFunc samples.defaultSpec samples.mergeThreshold samples.mergeQoS
      samples.keepQoS samples.mergeBurst (ObjNodeSLO (Some samples.sloCPU80))
      samples.world0 = Done (tt, w1)
    /\ UpdateFunc samples.defaultSpec samples.mergeThreshold samples.mergeQoS
         samples.keepQoS samples.mergeBurst
         (ObjNodeSLO (Some samples.sloCPU80))
         (ObjNodeSLO (Some samples.sloCPU90v2)) w1 = Done (tt, w2)
    /\ nodeSLO (mgr w2) = Some stored
    /\ NodeSLO_TypeMeta stored = NodeSLO_TypeMeta samples.sloCPU80
    /\ NodeSLO_ObjectMeta stored = NodeSLO_ObjectMeta samples.sloCPU80
    /\ Status stored = Status samples.sloCPU80
    /\ Spec stored =
       mergedSpec samples.defaultSpec samples.mergeThreshold samples.mergeQoS
         samples.keepQoS samples.mergeBurst samples.sloCPU90v2
         samples.sloCPU90v2.
Proof.
  apply (AddFunc_then_UpdateFunc samples.defaultSpec samples.mergeThreshold
           samples.mergeQoS samples.keepQoS samples.mergeBurst samples.world0
           samples.sloCPU80 samples.sloCPU90v2).
  vm_compute. reflexivity.
Defined.

(** ** More on the eviction pipeline *)

Lemma evictCalls_evictRequest pod reason message rest :
  trace.evictCalls (evictRequest pod reason message ++ rest) =
  EvictV1Call (Namespace (Pod_ObjectMeta pod)) (Name (Pod_ObjectMeta pod))
  :: trace.evictCalls rest.
Proof. reflexivity. Qed.



Lemma Get_None_later c t t' k :
  expireCache.Get c t k = None -> t <= t' -> expireCache.Get c t' k = None.
Proof.
  unfold expireCache.Get. destruct (expireCache.items c !! k) as [it|]; [|done].
  destruct (Z.ltb_spec t (expireCache.expirationTime it)); [done|].
  intros _ Hle. destruct (Z.ltb_spec t' (expireCache.expirationTime it)); [lia|done].
Qed.

Lemma Get_recordEvicted w uid t :
  expireCache.stopped (podsEvicted (mgr w)) = false ->
  expireCache.Get (podsEvicted (mgr (recordEvicted w uid))) t uid =
  if Z.ltb t (clock w + expireCache.defaultExpiration (podsEvicted (mgr w)))
  then Some uid else None.
Proof.
  intros Hs. unfold expireCache.Get.
  by rewrite recordEvicted_items.
Qed.

(** What the pod-disruption API has to answer for [evictPod] to return
    true: the eviction is accepted, or the pod is not found. *)
Lemma evictPodIfNotEvicted_taken_as_evicted
  EvictV1 w pod node reason message w1 :
  expireCache.Get (podsEvicted (mgr w)) (clock w) (UID (Pod_ObjectMeta pod))
    = None ->
  (evictAnswer EvictV1 w pod reason message = None
   \/ exists e, evictAnswer EvictV1 w pod reason message = Some e
                /\ apierrors.IsNotFound e = true) ->
  evictPodIfNotEvicted EvictV1 pod node reason message w = Done (tt, w1) ->
  exists new,
    w1 = recordEvicted (add_effects w (evictRequest pod reason message ++ new))
           (UID (Pod_ObjectMeta pod)).
Proof.
  intros Hget Hans Hrun.
  destruct Hans as [Hans|(e & Hans & Hnf)].
  - rewrite evictPodIfNotEvicted_accepted_records_entry in Hrun by assumption.
    injection Hrun as <-. by eexists.
  - rewrite evictPodIfNotEvicted_fresh in Hrun by exact Hget.
    rewrite (evictPod_not_found _ _ _ _ _ _ e Hans Hnf) in Hrun.
    injection Hrun as <-. exists []. by rewrite app_nil_r.
Qed.

(** X10: no second request inside the TTL window.  Once a call for a pod
    has been taken as an eviction (accepted, or pod not found) on a running
    cache, any later call for that pod made before the entry's expiry
    (clock below the time of the first call plus the cache's TTL), in a
    world with the same manager, sends nothing to the API and leaves the
    manager unchanged. *)
Theorem evictPodIfNotEvicted_again_within_ttl :
  forall EvictV1 EvictV1' w w1 w2 pod node reason message node' reason' message',
    expireCache.Get (podsEvicted (mgr w)) (clock w) (UID (Pod_ObjectMeta pod))
      = None ->
    expireCache.stopped (podsEvicted (mgr w)) = false ->
    (evictAnswer EvictV1 w pod reason message = None
     \/ exists e, evictAnswer EvictV1 w pod reason message = Some e
                  /\ apierrors.IsNotFound e = true) ->
    evictPodIfNotEvicted EvictV1 pod node reason message w = Done (tt, w1) ->
    mgr w2 = mgr w1 ->
    clock w2 < clock w + expireCache.defaultExpiration (podsEvicted (mgr w)) ->
    evictPodIfNotEvicted EvictV1' pod node' reason' message' w2 =
    Done (tt, add_effects w2
                [Klog SevV5 "Pod has been evicted! podID: %v, evict reason: %s"]).
Proof.
  intros * Hget Hs Hans Hrun Hmgr Hclock.
  destruct (evictPodIfNotEvicted_taken_as_evicted _ _ _ _ _ _ _ Hget Hans Hrun)
    as (new & ->).
  apply evictPodIfNotEvicted_found with (v := UID (Pod_ObjectMeta pod)).
  rewrite Hmgr, Get_recordEvicted by exact Hs. cbn.
  destruct (Z.ltb_spec (clock w2)
              (clock w + expireCache.defaultExpiration (podsEvicted (mgr w))));
    [done|lia].
Qed.

(** X11: after the TTL the pod is eligible again.  In the situation of X10,
    a call made after the entry's expiry (clock above the time of the first
    call plus the TTL) sends a new eviction request for the pod. *)
Theorem evictPodIfNotEvicted_again_after_ttl :
  forall EvictV1 EvictV1' w w1 w2 pod node reason message node' reason' message',
    expireCache.Get (podsEvicted (mgr w)) (clock w) (UID (Pod_ObjectMeta pod))
      = None ->
    expireCache.stopped (podsEvicted (mgr w)) = false ->
    (evictAnswer EvictV1 w pod reason message = None
     \/ exists e, evictAnswer EvictV1 w pod reason message = Some e
                  /\ apierrors.IsNotFound e = true) ->
    evictPodIfNotEvicted EvictV1 pod node reason message w = Done (tt, w1) ->
    mgr w2 = mgr w1 ->
    clock w + expireCache.defaultExpiration (podsEvicted (mgr w)) < clock w2 ->
    exists w3 rest,
      evictPodIfNotEvicted EvictV1' pod node' reason' message' w2
      = Done (tt, w3)
      /\ effects w3 = effects w2 ++ evictRequest pod reason' message' ++ rest.
Proof.
  intros * Hget Hs Hans Hrun Hmgr Hclock.
  destruct (evictPodIfNotEvicted_taken_as_evicted _ _ _ _ _ _ _ Hget Hans Hrun)
    as (new & ->).
  apply evictPodIfNotEvicted_attempts.
  rewrite Hmgr, Get_recordEvicted by exact Hs. cbn.
  destruct (Z.ltb_spec (clock w2)
              (clock w + expireCache.defaultExpiration (podsEvicted (mgr w))));
    [lia|done].
Qed.

(** X12: a refused eviction can be retried at once.  After a call whose
    request failed with an error other than not-found, a further call for
    the pod at the same or a later time, in a world with the same manager,
    sends a new eviction request. *)
Theorem evictPodIfNotEvicted_retry_after_refusal :
  forall EvictV1 EvictV1' w w1 w2 pod node reason message node' reason' message' e,
    expireCache.Get (podsEvicted (mgr w)) (clock w) (UID (Pod_ObjectMeta pod))
      = None ->
    evictAnswer EvictV1 w pod reason message = Some e ->
    apierrors.IsNotFound e = false ->
    evictPodIfNotEvicted EvictV1 pod node reason message w = Done (tt, w1) ->
    mgr w2 = mgr w1 ->
    clock w <= clock w2 ->
    exists w3 rest,
      evictPodIfNotEvicted EvictV1' pod node' reason' message' w2
      = Done (tt, w3)
      /\ effects w3 = effects w2 ++ evictRequest pod reason' message' ++ rest.
Proof.
  intros * Hget Hans Hnf Hrun Hmgr Hclock.
  rewrite evictPodIfNotEvicted_fresh in Hrun by exact Hget.
  rewrite (evictPod_refused _ _ _ _ _ _ e Hans Hnf) in Hrun.
  injection Hrun as <-.
  apply evictPodIfNotEvicted_attempts.
  rewrite Hmgr. cbn. by eapply Get_None_later.
Qed.

Lemma evictPodIfNotEvicted_again_within_ttl_witness :
  evictPodIfNotEvicted samples.apiAllAccepted samples.podA samples.node0
    "cpu" "suppress" (samples.atTime 1299 samples.worldAfterGone) =
  Done (tt, add_effects (samples.atTime 1299 samples.worldAfterGone)
              [Klog SevV5 "Pod has been evicted! podID: %v, evict reason: %s"]).
Proof.
  apply (evictPodIfNotEvicted_again_within_ttl samples.apiAllGone
           samples.apiAllAccepted samples.world0 samples.worldAfterGone
           (samples.atTime 1299 samples.worldAfterGone) samples.podA
           samples.node0 "memory" "over threshold" samples.node0
           "cpu" "suppress").
  - vm_compute. reflexivity.
  - reflexivity.
  - right. exists samples.errNotFound. split; reflexivity.
  - vm_compute. reflexivity.
  - reflexivity.
  - vm_compute. reflexivity.
Defined.

Lemma evictPodIfNotEvicted_again_after_ttl_witness :
  exists w3 rest,
    evictPodIfNotEvicted samples.apiAllAccepted samples.podA samples.node0
      "cpu" "suppress" (samples.atTime 1301 samples.worldAfterGone)
    = Done (tt, w3)
    /\ effects w3 =
       effects (samples.atTime 1301 samples.worldAfterGone) ++
       evictRequest samples.podA "cpu" "suppress" ++ rest.
Proof.
  apply (evictPodIfNotEvicted_again_after_ttl samples.apiAllGone
           samples.apiAllAccepted samples.world0 samples.worldAfterGone
           (samples.atTime 1301 samples.worldAfterGone) samples.podA
           samples.node0 "memory" "over threshold" samples.node0
           "cpu" "suppress").
  - vm_compute. reflexivity.
  - reflexivity.
  - right. exists samples.errNotFound. split; reflexivity.
  - vm_compute. reflexivity.
  - reflexivity.
  - vm_compute. reflexivity.
Defined.

Lemma evictPodIfNotEvicted_retry_after_refusal_witness :
  exists w3 rest,
    evictPodIfNotEvicted samples.apiAllAccepted samples.podA samples.node0
      "cpu" "suppress" samples.worldAfterRefused
    = Done (tt, w3)
    /\ effects w3 =
       effects samples.worldAfterRefused ++
       evictRequest samples.podA "cpu" "suppress" ++ rest.
Proof.
  apply (evictPodIfNotEvicted_retry_after_refusal samples.apiAllRefused
           samples.apiAllAccepted samples.world0 samples.worldAfterRefused
           samples.worldAfterRefused samples.podA samples.node0
           "memory" "over threshold" samples.node0 "cpu" "suppress"
           samples.errTooManyRequests).
  - vm_compute. reflexivity.
  - reflexivity.
  - reflexivity.
  - vm_compute. reflexivity.
  - reflexivity.
  - simpl. lia.
Defined.

(** ** More on the batch helper *)



(** X14: a pod listed twice is requested once.  On a running cache with a
    positive TTL, for a pod that is not in the cache and whose eviction is
    accepted or answered with not-found, the batch of the pod twice sends
    one eviction request. *)
Theorem evictPodsIfNotEvicted_duplicate_pod :
  forall EvictV1 w pod node reason message,
    expireCache.Get (podsEvicted (mgr w)) (clock w) (UID (Pod_ObjectMeta pod))
      = None ->
    expireCache.stopped (podsEvicted (mgr w)) = false ->
    0 < expireCache.defaultExpiration (podsEvicted (mgr w)) ->
    (evictAnswer EvictV1 w pod reason message = None
     \/ exists e, evictAnswer EvictV1 w pod reason message = Some e
                  /\ apierrors.IsNotFound e = true) ->
    exists w' new,
      evictPodsIfNotEvicted EvictV1 [pod; pod] node reason message w
      = Done (tt, w')
      /\ effects w' = effects w ++ new
      /\ trace.evictCalls new =
         [EvictV1Call (Namespace (Pod_ObjectMeta pod))
            (Name (Pod_ObjectMeta pod))].
Proof.
  intros * Hget Hs Httl Hans.
  assert (Hagain : forall es,
    evictPodIfNotEvicted EvictV1 pod node reason message
      (recordEvicted (add_effects w es) (UID (Pod_ObjectMeta pod))) =
    Done (tt, add_effects
                (recordEvicted (add_effects w es) (UID (Pod_ObjectMeta pod)))
                [Klog SevV5
                   "Pod has been evicted! podID: %v, evict reason: %s"])).
  { intros es.
    apply evictPodIfNotEvicted_found with (v := UID (Pod_ObjectMeta pod)).
    rewrite Get_recordEvicted by exact Hs. cbn.
    destruct (Z.ltb_spec (clock w)
                (clock w + expireCache.defaultExpiration (podsEvicted (mgr w))));
      [done|lia]. }
  destruct Hans as [Hans|(e & Hans & Hnf)].
  - eexists _, _. split; [|split].
    + cbn. unfold bind.
      rewrite evictPodIfNotEvicted_accepted_records_entry by assumption.
      rewrite Hagain. reflexivity.
    + cbn. rewrite <- app_assoc. reflexivity.
    + reflexivity.
  - eexists _, _. split; [|split].
    + cbn. unfold bind.
      rewrite evictPodIfNotEvicted_fresh by exact Hget.
      rewrite (evictPod_not_found _ _ _ _ _ _ e Hans Hnf).
      rewrite Hagain. reflexivity.
    + cbn. rewrite <- app_assoc. reflexivity.
    + reflexivity.
Qed.

Lemma evictPodsIfNotEvicted_duplicate_pod_witness :
  exists w' new,
    evictPodsIfNotEvicted samples.apiAllAccepted [samples.podA; samples.podA]
      samples.node0 "memory" "over threshold" samples.world0 = Done (tt, w')
    /\ effects w' = effects samples.world0 ++ new
    /\ trace.evictCalls new = [EvictV1Call "default" "pod-a"].
Proof.
  apply (evictPodsIfNotEvicted_duplicate_pod samples.apiAllAccepted
           samples.world0 samples.podA samples.node0 "memory"
           "over threshold").
  - vm_compute. reflexivity.
  - reflexivity.
  - simpl. lia.
  - left. reflexivity.
Defined.

Lemma evictPodsIfNotEvicted_requests_all_witness :
  exists w' new,
    evictPodsIfNotEvicted samples.apiRefuseFirst [samples.podA; samples.podB]
      samples.node0 "memory" "over threshold" samples.world0 = Done (tt, w')
    /\ effects w' = effects samples.world0 ++ new
    /\ forall p, p ∈ [samples.podA; samples.podB] ->
         EvictV1Call (Namespace (Pod_ObjectMeta p)) (Name (Pod_ObjectMeta p))
         ∈ new.
Proof.
  apply (evictPodsIfNotEvicted_requests_all samples.apiRefuseFirst
           samples.node0 "memory" "over threshold"
           [samples.podA; samples.podB] samples.world0).
  - apply (bool_decide_unpack _). vm_compute. exact I.
  - intros p Hp. vm_compute. reflexivity.
Defined.

(** ** More on the direct container stop *)
Section KillContainersFurther.

Variable FindContainerIdAndStatusByName :
  PodStatus -> string -> string * option ContainerStatus * option string.
Variable ParseContainerId : string -> string * string * option string.
Variable GetRuntimeHandler : string -> option RuntimeHandler * option string.
Variable StopContainer :
  list Effect -> RuntimeHandler -> string -> Z -> option string.

Local Abbreviation loop :=
  (killContainers_loop FindContainerIdAndStatusByName ParseContainerId
     GetRuntimeHandler StopContainer).

Variables (pod : Pod) (message : string).

Lemma killContainers_loop_empty_id c rest w st r :
  FindContainerIdAndStatusByName (Pod_Status pod) (Container_Name c)
    = (EmptyString, Some st, None) ->
  Running (ContainerStatus_State st) = Some r ->
  loop pod message (c :: rest) w =
  loop pod message rest
    (add_effects w
       [Klog SevWarning
          "%s, get container ID failed, pod %s/%s containerName %s status: %v"]).
Proof. intros Hfind Hrun. cbn. by rewrite Hfind, Hrun. Qed.

(** The effects of one turn of the loop on a container that does not end
    the walk. *)
Lemma killContainers_loop_continue c w cID st r :
  FindContainerIdAndStatusByName (Pod_Status pod) (Container_Name c)
    = (cID, Some st, None) ->
  Running (ContainerStatus_State st) = Some r ->
  exists es,
    (forall rest,
        loop pod message (c :: rest) w =
        loop pod message rest (add_effects w es))
    /\ Forall (fun e => trace.isKlog e = true
                        \/ exists h id, e = StopContainerCall h id 0) es
    /\ (length (trace.stopCalls es) <= 1)%nat
    /\ (forall h, cID <> EmptyString ->
          GetRuntimeHandler (ParseContainerId (ContainerID st)).1.1
            = (Some h, None) ->
          In (StopContainerCall h cID 0) es).
Proof.
  intros Hfind Hrun.
  destruct (decide (cID = EmptyString)) as [->|Hid].
  { eexists. split; [intros; by eapply killContainers_loop_empty_id|].
    split; [|split].
    - repeat constructor.
    - cbn. lia.
    - done. }
  destruct (GetRuntimeHandler (ParseContainerId (ContainerID st)).1.1)
    as [[h|] [e|]] eqn:Hh.
  2: { eexists. split; [intros; by eapply killContainers_loop_stop|].
       split; [|split].
       - constructor.
         + right. by eexists _, _.
         + destruct (StopContainer _ _ _ _); repeat constructor.
       - cbn. destruct (StopContainer _ _ _ _); cbn; lia.
       - intros h' _ [= <-]. by left. }
  all: eexists; split;
    [intros; eapply killContainers_loop_handler_failure; eauto; congruence|];
    (split; [|split]);
    [repeat constructor | cbn; lia | intros; congruence].
Qed.

(** X16: as long as no container ends the walk, all of them are served.
    If every container of the list resolves without error to a status that
    is running, the loop finishes having gone through the whole list, and
    every container of the list that has an id and a handler for its
    runtime is sent a stop request with grace period 0; whether the stop
    requests and the handler lookups of the other containers fail makes no
    difference. *)
Theorem killContainers_loop_serves_all :
  forall containers w,
    (forall c, In c containers ->
       exists cID st r,
         FindContainerIdAndStatusByName (Pod_Status pod) (Container_Name c)
           = (cID, Some st, None)
         /\ Running (ContainerStatus_State st) = Some r) ->
    exists new,
      killContainers_loop FindContainerIdAndStatusByName ParseContainerId
        GetRuntimeHandler StopContainer pod message containers w
      = Done (tt, add_effects w new)
      /\ forall c cID st h,
          In c containers ->
          FindContainerIdAndStatusByName (Pod_Status pod) (Container_Name c)
            = (cID, Some st, None) ->
          cID <> EmptyString ->
          GetRuntimeHandler (ParseContainerId (ContainerID st)).1.1
            = (Some h, None) ->
          In (StopContainerCall h cID 0) new.
Proof.
  induction containers as [|c rest IH]; intros w Hall.
  - exists []. split; [|by intros ? ? ? ? []].
    unfold add_effects. rewrite app_nil_r. by destruct w.
  - destruct (Hall c) as (cID & st & r & Hfind & Hrun); [by left|].
    destruct (killContainers_loop_continue c w cID st r Hfind Hrun)
      as (es & Hstep & _ & _ & Hstop).
    destruct (IH (add_effects w es)) as (new & Hrest & Hin).
    { intros c' Hc'. apply Hall. by right. }
    exists (es ++ new). split.
    + rewrite Hstep, Hrest. by rewrite add_effects_app.
    + intros c' cID' st' h' [<-|Hc'] Hfind' Hid' Hh'.
      * rewrite Hfind in Hfind'. injection Hfind' as <- <-.
        apply in_or_app. left. by apply Hstop.
      * apply in_or_app. right. by eapply Hin.
Qed.


(** X18: a container that ends the walk hides everything after it.  If the
    resolution of a container fails, or yields no status, or a status that
    is not running, then the containers listed after it have no influence
    on the run: the loop on the whole list does what it does on the list cut
    after that container. *)
Theorem killContainers_loop_cut_at_unresolved :
  forall c cID st err,
    FindContainerIdAndStatusByName (Pod_Status pod) (Container_Name c)
      = (cID, st, err) ->
    (err <> None \/ st = None
     \/ exists status, st = Some status
                       /\ Running (ContainerStatus_State status) = None) ->
    forall before after w,
      killContainers_loop FindContainerIdAndStatusByName ParseContainerId
        GetRuntimeHandler StopContainer pod message (before ++ c :: after) w
      = killContainers_loop FindContainerIdAndStatusByName ParseContainerId
          GetRuntimeHandler StopContainer pod message (before ++ [c]) w.
Proof.
  intros c cID st err Hfind Hends before after.
  induction before as [|a before IH]; intros w.
  - cbn. rewrite Hfind.
    destruct err as [e|]; [reflexivity|].
    destruct st as [status|]; [|reflexivity].
    destruct Hends as [H|[H|(status' & [= <-] & Hrun)]]; try done.
    by rewrite Hrun.
  - rewrite <- !app_comm_cons.
    destruct (FindContainerIdAndStatusByName (Pod_Status pod)
                (Container_Name a)) as [[aID ast] aerr] eqn:Ha.
    destruct aerr as [e|].
    { by rewrite !(killContainers_loop_lookup_failure _ _ _ _ _ _ _ _ _ _ _ _
                     Ha). }
    destruct ast as [astatus|]; [|cbn; by rewrite Ha].
    destruct (Running (ContainerStatus_State astatus)) as [r|] eqn:Hrun;
      [|cbn; by rewrite Ha, Hrun].
    destruct (killContainers_loop_continue a w aID astatus r Ha Hrun)
      as (es & Hstep & _).
    rewrite !Hstep. apply IH.
Qed.

End KillContainersFurther.

Lemma killContainers_loop_serves_all_witness :
  exists new,
    killContainers_loop samples.findContainerIdAndStatusByName
      samples.parseContainerId samples.getRuntimeHandler
      (samples.stopContainer ["c-side"]) samples.podBothRunning "memory"
      (Containers (Pod_Spec samples.podBothRunning)) samples.world0
    = Done (tt, add_effects samples.world0 new)
    /\ forall c cID st h,
        In c (Containers (Pod_Spec samples.podBothRunning)) ->
        samples.findContainerIdAndStatusByName
          (Pod_Status samples.podBothRunning) (Container_Name c)
          = (cID, Some st, None) ->
        cID <> EmptyString ->
        samples.getRuntimeHandler
          (samples.parseContainerId (ContainerID st)).1.1 = (Some h, None) ->
        In (StopContainerCall h cID 0) new.
Proof.
  apply (killContainers_loop_serves_all samples.findContainerIdAndStatusByName
           samples.parseContainerId samples.getRuntimeHandler
           (samples.stopContainer ["c-side"]) samples.podBothRunning "memory"
           (Containers (Pod_Spec samples.podBothRunning)) samples.world0).
  intros c [<-|[<-|[]]]; eexists _, _, _; split; vm_compute; reflexivity.
Defined.

Lemma killContainers_loop_cut_at_unresolved_witness :
  killContainers_loop samples.findContainerIdAndStatusByName
    samples.parseContainerId samples.getRuntimeHandler
    (samples.stopContainer []) samples.podSidecarWaiting "memory"
    ([] ++ samples.container "sidecar" :: [samples.container "main"])
    samples.world0
  = killContainers_loop samples.findContainerIdAndStatusByName
      samples.parseContainerId samples.getRuntimeHandler
      (samples.stopContainer []) samples.podSidecarWaiting "memory"
      ([] ++ [samples.container "sidecar"]) samples.world0.
Proof.
  apply (killContainers_loop_cut_at_unresolved
           samples.findContainerIdAndStatusByName samples.parseContainerId
           samples.getRuntimeHandler (samples.stopContainer [])
           samples.podSidecarWaiting "memory" (samples.container "sidecar")
           EmptyString None
           (Some "unable to find ID for container in pod status")).
  - vm_compute. reflexivity.
  - left. discriminate.
Defined.

(** ** The nil guard of the merge and its two callers *)
Section StoreWriters.

Variable DefaultNodeSLOSpecConfig : NodeSLOSpec.
Variable mergeSLOSpecResourceUsedThresholdWithBE :
  option ResourceThresholdStrategy -> option ResourceThresholdStrategy ->
  option ResourceThresholdStrategy.
Variable mergeSLOSpecResourceQoSStrategy :
  option ResourceQoSStrategy -> option ResourceQoSStrategy ->
  option ResourceQoSStrategy.
Variable mergeNoneResourceQoSIfDisabled :
  option ResourceQoSStrategy -> option ResourceQoSStrategy.
Variable mergeSLOSpecCPUBurstStrategy :
  option CPUBurstStrategy -> option CPUBurstStrategy ->
  option CPUBurstStrategy.

(** X2: the nil guard of [mergeNodeSLOSpec] is out of reach of its two
    callers.  Whenever [createNodeSLO] or [updateNodeSLOSpec] finishes, the
    store is populated and the only effect of the call is the info line
    with the old and the new content; the guard's error line is never
    written, because the assignment of the spec panics first in every case
    where the guard would fire. *)
Theorem store_writers_never_reach_nil_guard :
  forall incoming w w',
    createNodeSLO DefaultNodeSLOSpecConfig
      mergeSLOSpecResourceUsedThresholdWithBE mergeSLOSpecResourceQoSStrategy
      mergeNoneResourceQoSIfDisabled mergeSLOSpecCPUBurstStrategy incoming w
    = Done (tt, w')
    \/ updateNodeSLOSpec DefaultNodeSLOSpecConfig
         mergeSLOSpecResourceUsedThresholdWithBE
         mergeSLOSpecResourceQoSStrategy mergeNoneResourceQoSIfDisabled
         mergeSLOSpecCPUBurstStrategy incoming w
       = Done (tt, w') ->
    effects w' =
      effects w ++ [Klog SevInfo "update nodeSLO content: old %s, new %s"]
    /\ nodeSLO (mgr w') <> None.
Proof.
  intros incoming w w' [Hrun|Hrun].
  - destruct incoming as [new|]; [|discriminate Hrun].
    rewrite createNodeSLO_populates in Hrun. injection Hrun as <-. by cbn.
  - destruct (nodeSLO (mgr w)) as [old|] eqn:Hold.
    + destruct incoming as [new|].
      * rewrite (updateNodeSLOSpec_stored _ _ _ _ _ _ _ _ Hold) in Hrun.
        injection Hrun as <-. by cbn.
      * unfold updateNodeSLOSpec, bind, getMgr, panic in Hrun.
        rewrite Hold in Hrun. discriminate Hrun.
    + rewrite updateNodeSLOSpec_empty_store in Hrun by exact Hold.
      discriminate Hrun.
Qed.

End StoreWriters.

Lemma store_writers_never_reach_nil_guard_witness :
  effects
    (add_effects
       {| mgr := set_nodeSLO (mgr samples.worldStored)
                   (Some (set_Spec samples.sloEmpty
                            (mergedSpec samples.defaultSpec
                               samples.mergeThreshold samples.mergeQoS
                               samples.keepQoS samples.mergeBurst
                               samples.sloCPU80 samples.sloCPU80)));
          clock := 1000; effects := [] |}
       [Klog SevInfo "update nodeSLO content: old %s, new %s"]) =
    effects samples.worldStored ++
    [Klog SevInfo "update nodeSLO content: old %s, new %s"]
  /\ nodeSLO
       (mgr (add_effects
               {| mgr := set_nodeSLO (mgr samples.worldStored)
                           (Some (set_Spec samples.sloEmpty
                                    (mergedSpec samples.defaultSpec
                                       samples.mergeThreshold samples.mergeQoS
                                       samples.keepQoS samples.mergeBurst
                                       samples.sloCPU80 samples.sloCPU80)));
                  clock := 1000; effects := [] |}
               [Klog SevInfo "update nodeSLO content: old %s, new %s"]))
     <> None.
Proof.
  apply (store_writers_never_reach_nil_guard samples.defaultSpec
           samples.mergeThreshold samples.mergeQoS samples.keepQoS
           samples.mergeBurst (Some samples.sloCPU80) samples.worldStored).
  right. vm_compute. reflexivity.
Defined.
